(** * BenchmarkLeaderboard: a shallow embedding of the cog and its properties

  Source: [src/benchmarkleaderboard/benchmarkleaderboard.py].

  The cog keeps [self.leaderboards : Dict[str, Dict[int, float]]] and
  exposes the commands [add], [view], [types], [delete], [history] and
  [leaderboard].  Python dictionaries keep insertion order and [sorted]
  is stable, so dictionaries are association lists in insertion order;
  scores are IEEE-754 binary64 values ([spec_float] of the Standard
  Library, with [nan], the infinities and signed zeros); the commands
  run in a small state-and-exception monad whose state carries the
  in-memory store and the trace of calls made to the collaborators
  ([config.leaderboards.set] and [ctx.send]). *)

From Stdlib Require Import ZArith List String Ascii Bool Lia.
From Stdlib Require Import Floats.SpecFloat.
From Stdlib Require Import Sorting.Permutation Sorting.Sorted.
Import ListNotations.

Local Open Scope string_scope.
Local Open Scope Z_scope.
Local Open Scope list_scope.

(* ================================================================== *)
(** ** Scores: Python [float] *)

Module PyFloat.

(** A Python [float] is a binary64 value. *)
Definition float : Type := spec_float.

Definition prec : Z := 53.
Definition emax : Z := 1024.

Definition is_binary64 (x : float) : bool := valid_binary prec emax x.

(** [float(m * 2**e)], rounded to nearest even: how literals are written. *)
Definition of_scaled (m e : Z) : float := binary_normalize prec emax m e false.
Definition of_Z (m : Z) : float := of_scaled m 0.

Definition nan : float := S754_nan.

(** [a < b] and [a > b] on floats; both are [False] as soon as one
    side is [nan]. *)
Definition lt (a b : float) : bool := SFltb a b.
Definition gt (a b : float) : bool := SFltb b a.
(** [a <= b] and [a >= b]. *)
Definition le (a b : float) : bool := SFleb a b.
Definition ge (a b : float) : bool := SFleb b a.

Definition is_nan (x : float) : bool :=
  match x with S754_nan => true | _ => false end.

End PyFloat.

(* ================================================================== *)
(** ** Dictionaries: insertion-ordered association lists *)

Class Key (K : Type) : Type := {
  key_eqb : K -> K -> bool;
  key_eqb_eq : forall a b, key_eqb a b = true <-> a = b
}.

#[export] Instance string_Key : Key string :=
  {| key_eqb := String.eqb; key_eqb_eq := String.eqb_eq |}.

#[export] Instance Z_Key : Key Z :=
  {| key_eqb := Z.eqb; key_eqb_eq := Z.eqb_eq |}.

Module Dict.
Section Ops.
Context {K V : Type} `{Key K}.

(** Items in insertion order; keys are pairwise distinct in every
    dictionary the program builds ([wf]). *)
Definition dict : Type := list (K * V).

Definition empty : dict := [].

(** [d.get(k)] *)
Fixpoint get (d : dict) (k : K) : option V :=
  match d with
  | [] => None
  | (k', v) :: d' => if key_eqb k k' then Some v else get d' k
  end.

(** [k in d] *)
Definition mem (k : K) (d : dict) : bool :=
  match get d k with Some _ => true | None => false end.

(** [d[k] = v]: an existing key keeps its position, a new key goes last. *)
Fixpoint set (d : dict) (k : K) (v : V) : dict :=
  match d with
  | [] => [(k, v)]
  | (k', v') :: d' =>
      if key_eqb k k' then (k', v) :: d' else (k', v') :: set d' k v
  end.

(** [del d[k]]: [None] stands for [KeyError]. *)
Fixpoint del (d : dict) (k : K) : option dict :=
  match d with
  | [] => None
  | (k', v') :: d' =>
      if key_eqb k k' then Some d'
      else match del d' k with
           | Some r => Some ((k', v') :: r)
           | None => None
           end
  end.

Definition keys (d : dict) : list K := map fst d.
Definition items (d : dict) : list (K * V) := d.

(** [not d] *)
Definition is_empty (d : dict) : bool :=
  match d with [] => true | _ :: _ => false end.

Definition wf (d : dict) : Prop := NoDup (keys d).
End Ops.
Arguments dict : clear implicits.
End Dict.

(* ================================================================== *)
(** ** [sorted(iterable, key=..., reverse=...)] *)

Module PySort.
Section Sorted.
Context {A B : Type} (key : A -> B) (lt : B -> B -> bool).

(** Insert [x] to the right of every element whose key is not greater:
    elements with equal keys keep their order of arrival. *)
Fixpoint insert (x : A) (l : list A) : list A :=
  match l with
  | [] => [x]
  | y :: l' => if lt (key x) (key y) then x :: y :: l' else y :: insert x l'
  end.

(** The stable ascending sort, comparing keys with [<] only.  On keys
    where [<] is a strict weak order every stable sort, CPython's
    included, returns this list; on keys that hold a [nan] the order
    CPython returns depends on its algorithm, and the one ranking with
    a [nan] examined below is non-increasing in no order of its entries. *)
Definition stable_sort (l : list A) : list A :=
  fold_left (fun acc x => insert x acc) l [].

(** [reverse=True] reverses the input, sorts ascending and reverses the
    result, which keeps equal keys in their original order. *)
Definition sorted (reverse : bool) (l : list A) : list A :=
  if reverse then rev (stable_sort (rev l)) else stable_sort l.
End Sorted.
End PySort.


(* ================================================================== *)
(** ** Text, users, embeds *)

(** An f-string is kept as its sequence of pieces: the literal parts and
    the interpolated values.  How [str()] prints an [int] or a [float]
    is left to Python. *)
Inductive frag : Type :=
| Str (s : string)
| Int (n : Z)
| Flt (x : PyFloat.float).

Definition text : Type := list frag.

Definition newline : string := String (ascii_of_nat 10) EmptyString.

(** [sep.join(parts)] *)
Fixpoint join (sep : string) (parts : list text) : text :=
  match parts with
  | [] => []
  | [p] => p
  | p :: ps => p ++ Str sep :: join sep ps
  end.

(** [f"{x}"] for [x : Optional[float]] *)
Definition fmt_optional (x : option PyFloat.float) : frag :=
  match x with
  | Some v => Flt v
  | None => Str "None"
  end.

(** [c.upper()] on the ASCII letters; other bytes are left as they are. *)
Definition upper_ascii (c : ascii) : ascii :=
  let n := nat_of_ascii c in
  if ((97 <=? n) && (n <=? 122))%nat then ascii_of_nat (n - 32) else c.

Fixpoint upper (s : string) : string :=
  match s with
  | EmptyString => EmptyString
  | String c s' => String (upper_ascii c) (upper s')
  end.

Module discord.

Record User : Type := { id : Z; name : string }.

Inductive Color : Type := blue | green | purple.

Record Embed : Type := {
  title : text;
  color : Color;
  fields : list (text * text)
}.

(** [embed.add_field(name=..., value=..., inline=False)] *)
Definition add_field (e : Embed) (nm value : text) : Embed :=
  {| title := title e; color := color e;
     fields := fields e ++ [(nm, value)] |}.

End discord.

(** [self.bot]: [fetch_user] answers [None] where the call raises
    [discord.NotFound], the one failure the cog handles. *)
Record Bot : Type := { fetch_user : Z -> option discord.User }.

(** [ctx]: the invoking user. *)
Record Context : Type := { author : discord.User }.

(* ================================================================== *)
(** ** The cog's state and the command monad *)

(** [self.leaderboards: Dict[str, Dict[int, float]]] *)
Definition store : Type := Dict.dict string (Dict.dict Z PyFloat.float).

Inductive message : Type :=
| Content (t : text)
| EmbedMsg (e : discord.Embed).

(** What the cog does to its collaborators, in program order:
    [ConfigSet v ok] is one call [self.config.leaderboards.set(v)] and
    whether the durable write went through; [Send m] is one [ctx.send]. *)
Inductive event : Type :=
| ConfigSet (value : store) (ok : bool)
| Send (m : message).

(** [faults] scripts the durable store: the head says whether the next
    write fails ([true]); once the script is used up every write succeeds. *)
Record world : Type := {
  leaderboards : store;
  faults : list bool;
  trace : list event
}.

Inductive exn : Type := KeyError | ConfigError.

Inductive result (A : Type) : Type :=
| Ret (a : A)
| Raise (e : exn).
Arguments Ret {A} a.
Arguments Raise {A} e.

Definition M (A : Type) : Type := world -> result A * world.

Definition ret {A : Type} (a : A) : M A := fun w => (Ret a, w).

Definition bind {A B : Type} (c : M A) (k : A -> M B) : M B :=
  fun w =>
    match c w with
    | (Ret a, w') => k a w'
    | (Raise e, w') => (Raise e, w')
    end.

Notation "x <- c ;; k" := (bind c (fun x => k))
  (at level 61, c at next level, right associativity).
Notation "c ;;; k" := (bind c (fun _ => k))
  (at level 61, right associativity).

Definition get_leaderboards : M store := fun w => (Ret (leaderboards w), w).

Definition set_leaderboards (lbs : store) : M unit := fun w =>
  (Ret tt, {| leaderboards := lbs; faults := faults w; trace := trace w |}).

Definition emit (e : event) (w : world) : world :=
  {| leaderboards := leaderboards w; faults := faults w;
     trace := trace w ++ [e] |}.

(** [await ctx.send(...)] *)
Definition send (m : message) : M unit := fun w => (Ret tt, emit (Send m) w).

(** [await self.config.leaderboards.set(self.leaderboards)]: the whole
    store is handed over; a failed write raises. *)
Definition config_set : M unit := fun w =>
  let value := leaderboards w in
  match faults w with
  | true :: fs =>
      (Raise ConfigError,
       {| leaderboards := value; faults := fs;
          trace := trace w ++ [ConfigSet value false] |})
  | false :: fs =>
      (Ret tt,
       {| leaderboards := value; faults := fs;
          trace := trace w ++ [ConfigSet value true] |})
  | [] =>
      (Ret tt,
       {| leaderboards := value; faults := [];
          trace := trace w ++ [ConfigSet value true] |})
  end.

(** [d[k]], raising [KeyError] on a missing key. *)
Definition getitem {K V : Type} `{Key K} (d : Dict.dict K V) (k : K) : M V :=
  fun w =>
    match Dict.get d k with
    | Some v => (Ret v, w)
    | None => (Raise KeyError, w)
    end.

(** [del d[k]], raising [KeyError] on a missing key. *)
Definition delitem {K V : Type} `{Key K} (d : Dict.dict K V) (k : K)
  : M (Dict.dict K V) :=
  fun w =>
    match Dict.del d k with
    | Some d' => (Ret d', w)
    | None => (Raise KeyError, w)
    end.

(** [enumerate(l, start)] *)
Fixpoint enumerate {A : Type} (start : Z) (l : list A) : list (Z * A) :=
  match l with
  | [] => []
  | x :: l' => (start, x) :: enumerate (start + 1) l'
  end.

(* ================================================================== *)
(** ** The commands *)

(** [sorted(scores.items(), key=lambda x: x[1], reverse=True)] *)
Definition sorted_scores (scores : Dict.dict Z PyFloat.float)
  : list (Z * PyFloat.float) :=
  PySort.sorted snd PyFloat.lt true (Dict.items scores).

(** The reply to an accepted score (lines 35-37). *)
Definition add_response (benchmark_type : string)
  (previous_score : option PyFloat.float) (score : PyFloat.float) : text :=
  match previous_score with
  | None =>
      [Str "Added new "; Str benchmark_type;
       Str " benchmark score: "; Flt score]
  | Some p =>
      [Str "New high score for "; Str benchmark_type;
       Str "! Updated from "; Flt p; Str " to "; Flt score]
  end.

(** The reply to a score that is not stored (line 40). *)
Definition not_updated_response (previous_score : option PyFloat.float)
  (benchmark_type : string) : text :=
  [Str "Your previous score of "; fmt_optional previous_score;
   Str " for "; Str benchmark_type; Str " is higher. Score not updated."].

(** [benchmark add <benchmark_type> <score>] (lines 20-40).  The inner
    dictionary is updated in place: the category keeps its position in
    the outer dictionary. *)
Definition benchmark_add (ctx : Context) (benchmark_type : string)
  (score : PyFloat.float) : M unit :=
  lbs <- get_leaderboards ;;
  (if negb (Dict.mem benchmark_type lbs)
   then set_leaderboards (Dict.set lbs benchmark_type Dict.empty)
   else ret tt) ;;;
  let user_id := discord.id (author ctx) in
  lbs <- get_leaderboards ;;
  scores <- getitem lbs benchmark_type ;;
  let previous_score := Dict.get scores user_id in
  if match previous_score with
     | None => true
     | Some p => PyFloat.gt score p
     end
  then
    set_leaderboards
      (Dict.set lbs benchmark_type (Dict.set scores user_id score)) ;;;
    config_set ;;;
    let response := add_response benchmark_type previous_score score in
    send (Content response)
  else
    send (Content (not_updated_response previous_score benchmark_type)).

(** The body of the loop of [benchmark view]: a user who cannot be
    fetched is skipped. *)
Definition view_step (bot : Bot) (embed : discord.Embed)
  (it : Z * (Z * PyFloat.float)) : discord.Embed :=
  let '(rank, (user_id, score)) := it in
  match fetch_user bot user_id with
  | Some user =>
      discord.add_field embed
        [Int rank; Str ". "; Str (discord.name user)]
        [Str "Score: "; Flt score]
  | None => embed
  end.

Definition no_scores_found (benchmark_type : string) : message :=
  Content [Str "No scores found for "; Str benchmark_type;
           Str " benchmark."].

(** The embed of lines 60-63, before any field is added. *)
Definition view_embed (benchmark_type : string) : discord.Embed :=
  {| discord.title := [Str (upper benchmark_type); Str " Benchmark Leaderboard"];
     discord.color := discord.blue;
     discord.fields := [] |}.

(** [benchmark view <benchmark_type>] (lines 43-77), with the slice
    bound ([10] in the source) as [n]. *)
Definition benchmark_view_n (n : nat) (bot : Bot) (benchmark_type : string)
  : M unit :=
  lbs <- get_leaderboards ;;
  if negb (Dict.mem benchmark_type lbs) then send (no_scores_found benchmark_type)
  else
    scores <- getitem lbs benchmark_type ;;
    if Dict.is_empty scores then send (no_scores_found benchmark_type)
    else
      let sorted_scores := sorted_scores scores in
      let embed := view_embed benchmark_type in
      let embed :=
        fold_left (view_step bot) (enumerate 1 (firstn n sorted_scores)) embed in
      send (EmbedMsg embed).

Definition benchmark_view : Bot -> string -> M unit := benchmark_view_n 10.

(** [sorted(self.leaderboards.keys())]: strings compare by code point. *)
Definition sorted_types (lbs : store) : list string :=
  PySort.sorted (fun k => k) String.ltb false (Dict.keys lbs).

(** [benchmark types] (lines 80-90) *)
Definition benchmark_types : M unit :=
  lbs <- get_leaderboards ;;
  if Dict.is_empty lbs
  then send (Content [Str "No benchmark types have been created yet."])
  else
    let types_list := join newline (map (fun k => [Str k]) (sorted_types lbs)) in
    send (Content (Str "Available benchmark types:" :: Str newline :: types_list)).

Definition no_leaderboard_found (benchmark_type : string) : message :=
  Content [Str "No leaderboard found for "; Str benchmark_type].

(** [benchmark delete <benchmark_type> [user]] (lines 94-116); the
    [admin] check is made by the framework before the body runs. *)
Definition benchmark_delete (benchmark_type : string)
  (user : option discord.User) : M unit :=
  lbs <- get_leaderboards ;;
  if negb (Dict.mem benchmark_type lbs)
  then send (no_leaderboard_found benchmark_type)
  else
    match user with
    | Some user =>
        scores <- getitem lbs benchmark_type ;;
        if Dict.mem (discord.id user) scores then
          scores' <- delitem scores (discord.id user) ;;
          set_leaderboards (Dict.set lbs benchmark_type scores') ;;;
          config_set ;;;
          send (Content [Str "Deleted "; Str (discord.name user);
                         Str "'s score for "; Str benchmark_type;
                         Str " benchmark"])
        else
          send (Content [Str (discord.name user); Str " has no score for ";
                         Str benchmark_type; Str " benchmark"])
    | None =>
        lbs' <- delitem lbs benchmark_type ;;
        set_leaderboards lbs' ;;;
        config_set ;;;
        send (Content [Str "Deleted entire "; Str benchmark_type;
                       Str " benchmark leaderboard"])
    end.

(** The dictionary comprehension of [benchmark history] (lines 127-131):
    the categories are visited in store order and kept where
    [user.id in scores]; the value is [scores.get(user.id)]. *)
Definition user_scores_step (user_id : Z) (acc : Dict.dict string PyFloat.float)
  (it : string * Dict.dict Z PyFloat.float) : Dict.dict string PyFloat.float :=
  let '(benchmark_type, scores) := it in
  match Dict.get scores user_id with
  | Some s => Dict.set acc benchmark_type s
  | None => acc
  end.

Definition user_scores (lbs : store) (user_id : Z)
  : Dict.dict string PyFloat.float :=
  fold_left (user_scores_step user_id) (Dict.items lbs) Dict.empty.

Definition history_step (embed : discord.Embed)
  (it : string * PyFloat.float) : discord.Embed :=
  let '(benchmark_type, score) := it in
  discord.add_field embed [Str (upper benchmark_type)] [Str "Score: "; Flt score].

(** The embed of lines 138-141, before any field is added. *)
Definition history_embed (user : discord.User) : discord.Embed :=
  {| discord.title := [Str "Historical Benchmark Scores for ";
                       Str (discord.name user)];
     discord.color := discord.green;
     discord.fields := [] |}.

(** [benchmark history [user]] (lines 119-150); [user or ctx.author]
    picks the invoker when no user is given. *)
Definition benchmark_history (ctx : Context) (user : option discord.User)
  : M unit :=
  let user := match user with Some u => u | None => author ctx end in
  lbs <- get_leaderboards ;;
  let user_scores := user_scores lbs (discord.id user) in
  if Dict.is_empty user_scores
  then send (Content [Str "No historical scores found for ";
                      Str (discord.name user); Str "."])
  else
    let embed := history_embed user in
    send (EmbedMsg (fold_left history_step (Dict.items user_scores) embed)).

(** The inner loop of [benchmark leaderboard] (lines 177-183); ranks are
    0-based and printed as [rank + 1]. *)
Definition entry_step (bot : Bot) (leaderboard_entries : list text)
  (it : Z * (Z * PyFloat.float)) : list text :=
  let '(rank, (user_id, score)) := it in
  match fetch_user bot user_id with
  | Some user =>
      leaderboard_entries ++
      [[Int (rank + 1); Str ". "; Str (discord.name user); Str ": "; Flt score]]
  | None => leaderboard_entries
  end.

(** The outer loop body (lines 169-193): the state is the embed and
    [processed_types]. *)
Definition leaderboard_step (n : nat) (bot : Bot)
  (st : discord.Embed * list string)
  (it : string * Dict.dict Z PyFloat.float) : discord.Embed * list string :=
  let '(embed, processed_types) := st in
  let '(benchmark_type, scores) := it in
  if Dict.is_empty scores || existsb (String.eqb benchmark_type) processed_types
  then st
  else
    let sorted_scores := sorted_scores scores in
    let leaderboard_entries :=
      fold_left (entry_step bot) (enumerate 0 (firstn n sorted_scores)) [] in
    let embed :=
      match leaderboard_entries with
      | [] => embed
      | _ :: _ =>
          discord.add_field embed [Str (upper benchmark_type)]
            (join newline leaderboard_entries)
      end in
    (embed, processed_types ++ [benchmark_type]).

(** The embed of lines 162-165, before any field is added. *)
Definition leaderboard_embed : discord.Embed :=
  {| discord.title := [Str "Overall Benchmark Leaderboards"];
     discord.color := discord.purple;
     discord.fields := [] |}.

(** [benchmark leaderboard] (lines 153-195), with the slice bound ([3]
    in the source) as [n]. *)
Definition benchmark_leaderboard_n (n : nat) (bot : Bot) : M unit :=
  lbs <- get_leaderboards ;;
  if Dict.is_empty lbs
  then send (Content [Str "No benchmark scores have been recorded yet."])
  else
    let embed := leaderboard_embed in
    let '(embed, _) :=
      fold_left (leaderboard_step n bot) (Dict.items lbs) (embed, []) in
    send (EmbedMsg embed).

Definition benchmark_leaderboard : Bot -> M unit := benchmark_leaderboard_n 3.

(* ================================================================== *)
(** ** The store seen through the operations of the specification *)

(** [Get(category, userId)]: the lookup of line 29; [None] is Absent. *)
Definition Get (lbs : store) (category : string) (userId : Z)
  : option PyFloat.float :=
  match Dict.get lbs category with
  | Some scores => Dict.get scores userId
  | None => None
  end.

(** [Categories()]: the keys listed by [benchmark types]. *)
Definition Categories (lbs : store) : list string := Dict.keys lbs.

(** The number of entries stored in a category ([0] when it is absent). *)
Definition entries (lbs : store) (category : string) : nat :=
  match Dict.get lbs category with
  | Some scores => List.length scores
  | None => 0%nat
  end.

(** [Top(category, n)]: the ranking that [benchmark view] renders,
    [sorted_scores[:n]]. *)
Definition Top (lbs : store) (category : string) (n : nat)
  : list (Z * PyFloat.float) :=
  match Dict.get lbs category with
  | Some scores => firstn n (sorted_scores scores)
  | None => []
  end.

(** [History(userId)]: the dictionary built by [benchmark history]. *)
Definition History (lbs : store) (userId : Z) : Dict.dict string PyFloat.float :=
  user_scores lbs userId.

(** [TopAllCategories(n)]: the rankings that [benchmark leaderboard]
    renders, one per category that passes the guard of line 170. *)
Definition top_all_step (n : nat)
  (st : Dict.dict string (list (Z * PyFloat.float)) * list string)
  (it : string * Dict.dict Z PyFloat.float)
  : Dict.dict string (list (Z * PyFloat.float)) * list string :=
  let '(acc, processed_types) := st in
  let '(benchmark_type, scores) := it in
  if Dict.is_empty scores || existsb (String.eqb benchmark_type) processed_types
  then st
  else (acc ++ [(benchmark_type, firstn n (sorted_scores scores))],
        processed_types ++ [benchmark_type]).

Definition TopAllCategories (n : nat) (lbs : store)
  : Dict.dict string (list (Z * PyFloat.float)) :=
  fst (fold_left (top_all_step n) (Dict.items lbs) ([], [])).

(** The items of a category ([[]] when it is absent). *)
Definition category_items (lbs : store) (category : string)
  : list (Z * PyFloat.float) :=
  match Dict.get lbs category with
  | Some scores => Dict.items scores
  | None => []
  end.

(** Every dictionary of a store has pairwise distinct keys. *)
Definition store_wf (lbs : store) : Prop :=
  Dict.wf lbs /\ Forall (fun it => Dict.wf (snd it)) lbs.

(** Running a command: the outcome and the world it leaves. *)
Definition outcome {A : Type} (r : result A * world) : result A := fst r.
Definition after {A : Type} (r : result A * world) : world := snd r.

Definition with_store (w : world) (lbs : store) : world :=
  {| leaderboards := lbs; faults := faults w; trace := trace w |}.

Definition init : world := {| leaderboards := []; faults := []; trace := [] |}.

(** The outcomes of the durable writes among some events. *)
Definition writes (evs : list event) : list bool :=
  flat_map (fun e => match e with ConfigSet _ ok => [ok] | Send _ => [] end) evs.

(* ------------------------------------------------------------------ *)
(** *** Put *)

(** The store after [benchmark add] has stored a score. *)
Definition put_store (lbs : store) (category : string) (userId : Z)
  (score : PyFloat.float) : store :=
  Dict.set lbs category
    (Dict.set (match Dict.get lbs category with
               | Some scores => scores
               | None => Dict.empty
               end) userId score).

(** Accepted: the score is stored, one durable write of the whole store
    is attempted, and the reply follows a write that went through. *)
Definition add_accepted (ctx : Context) (category : string)
  (score : PyFloat.float) (w : world) : Prop :=
  let r := benchmark_add ctx category score w in
  let userId := discord.id (author ctx) in
  Get (leaderboards (after r)) category userId = Some score /\
  exists ok : bool,
    trace (after r) =
      trace w ++ ConfigSet (leaderboards (after r)) ok ::
        (if ok
         then [Send (Content (add_response category
                                (Get (leaderboards w) category userId) score))]
         else []) /\
    outcome r = (if ok then Ret tt else Raise ConfigError).

(** Rejected: nothing is stored, no durable write is attempted, and the
    caller is told that the score was not updated. *)
Definition add_rejected (ctx : Context) (category : string)
  (score : PyFloat.float) (w : world) : Prop :=
  let r := benchmark_add ctx category score w in
  let userId := discord.id (author ctx) in
  leaderboards (after r) = leaderboards w /\
  faults (after r) = faults w /\
  trace (after r) =
    trace w ++ [Send (Content (not_updated_response
                                 (Get (leaderboards w) category userId) category))] /\
  outcome r = Ret tt.

(** [score] strictly exceeds the prior value, or there is none. *)
Definition exceeds_prior (prior : option PyFloat.float) (score : PyFloat.float)
  : Prop :=
  prior = None \/ exists p, prior = Some p /\ PyFloat.gt score p = true.

(** A sequence of [benchmark add] calls by one user in one category; a
    call that raised does not stop the next one. *)
Fixpoint run_adds (ctx : Context) (benchmark_type : string)
  (scores : list PyFloat.float) (w : world) : world :=
  match scores with
  | [] => w
  | s :: rest =>
      run_adds ctx benchmark_type rest (after (benchmark_add ctx benchmark_type s w))
  end.

(** [m] is the maximum of [l]: a member that every member is [<=]. *)
Definition is_maximum (m : PyFloat.float) (l : list PyFloat.float) : Prop :=
  In m l /\ Forall (fun s => PyFloat.le s m = true) l.

Definition no_nan (l : list PyFloat.float) : Prop :=
  Forall (fun s => PyFloat.is_nan s = false) l.

(** After the calls, [Get] returns the maximum score submitted. *)
Definition get_is_maximum (ctx : Context) (category : string)
  (scores : list PyFloat.float) (w : world) : Prop :=
  exists m,
    Get (leaderboards (run_adds ctx category scores w)) category
        (discord.id (author ctx)) = Some m /\
    is_maximum m scores.

(* ------------------------------------------------------------------ *)
(** *** Mutations and the durable write *)

Inductive mutation : Type :=
| Put (ctx : Context) (category : string) (score : PyFloat.float)
| Delete (category : string) (user : discord.User)
| DeleteCategory (category : string).

Definition run_mutation (mu : mutation) : M unit :=
  match mu with
  | Put ctx category score => benchmark_add ctx category score
  | Delete category user => benchmark_delete category (Some user)
  | DeleteCategory category => benchmark_delete category None
  end.

(** The mutation changes the store: the score is accepted, the entry
    exists, the category exists. *)
Definition applies (mu : mutation) (lbs : store) : bool :=
  match mu with
  | Put ctx category score =>
      match Get lbs category (discord.id (author ctx)) with
      | None => true
      | Some p => PyFloat.gt score p
      end
  | Delete category user =>
      match Get lbs category (discord.id user) with
      | Some _ => true
      | None => false
      end
  | DeleteCategory category => Dict.mem category lbs
  end.

(** Write, then acknowledge: one write of the whole store as the
    command leaves it; a reply only behind a write that went through; an
    exception and no reply behind a write that failed. *)
Definition write_then_acknowledge (w : world) (r : result unit * world) : Prop :=
  faults (after r) = tl (faults w) /\
  if hd false (faults w)
  then outcome r = Raise ConfigError /\
       trace (after r) = trace w ++ [ConfigSet (leaderboards (after r)) false]
  else outcome r = Ret tt /\
       exists m, trace (after r) =
                 trace w ++ [ConfigSet (leaderboards (after r)) true; Send m].

(** What the specification asks of a failed durable write: the caller
    sees an error, and the store is rolled back or the write retried. *)
Definition failure_contained (mu : mutation) (w : world) : Prop :=
  let r := run_mutation mu w in
  forall evs,
    trace (after r) = trace w ++ evs ->
    In false (writes evs) ->
    outcome r <> Ret tt /\
    (leaderboards (after r) = leaderboards w \/ (2 <= List.length (writes evs))%nat).

(* ------------------------------------------------------------------ *)
(** *** Rankings *)

(** Non-increasing by score: every pair in list order satisfies [a >= b]. *)
Definition non_increasing (l : list (Z * PyFloat.float)) : Prop :=
  StronglySorted (fun a b => PyFloat.ge (snd a) (snd b) = true) l.

(** The field that [benchmark leaderboard] adds for one ranking, if any. *)
Definition leaderboard_field (bot : Bot)
  (it : string * list (Z * PyFloat.float)) : list (text * text) :=
  let '(benchmark_type, top) := it in
  match fold_left (entry_step bot) (enumerate 0 top) [] with
  | [] => []
  | e :: es => [([Str (upper benchmark_type)], join newline (e :: es))]
  end.

(** The rankings of the categories that have entries, in store order. *)
Definition rankings (n : nat) (items : store)
  : Dict.dict string (list (Z * PyFloat.float)) :=
  flat_map (fun it : string * Dict.dict Z PyFloat.float =>
              if Dict.is_empty (snd it) then []
              else [(fst it, firstn n (sorted_scores (snd it)))]) items.

(** The field that [benchmark history] adds for one score. *)
Definition history_field (it : string * PyFloat.float) : text * text :=
  ([Str (upper (fst it))], [Str "Score: "; Flt (snd it)]).

(* ------------------------------------------------------------------ *)
(** *** The order of floats *)

(** Two floats other than [nan] compare as their ranks do, in the
    lexicographic order of sign class, exponent and mantissa. *)
Definition rank (x : PyFloat.float) : Z * Z * Z :=
  match x with
  | S754_nan => (0, 0, 0)
  | S754_zero _ => (0, 0, 0)
  | S754_infinity s => (if s then -2 else 2, 0, 0)
  | S754_finite s m e => if s then (-1, - e, - Zpos m) else (1, e, Zpos m)
  end.

Definition lex_compare (a b : Z * Z * Z) : comparison :=
  let '(a1, a2, a3) := a in
  let '(b1, b2, b3) := b in
  match Z.compare a1 b1 with
  | Eq => match Z.compare a2 b2 with
          | Eq => Z.compare a3 b3
          | c => c
          end
  | c => c
  end.

(* ------------------------------------------------------------------ *)
(** *** Concrete users and scores used in the examples *)

Definition ann : discord.User := {| discord.id := 1; discord.name := "ann" |}.
Definition bob : discord.User := {| discord.id := 2; discord.name := "bob" |}.
Definition as_ann : Context := {| author := ann |}.
Definition as_bob : Context := {| author := bob |}.

(** [95.5], [5.0], [3.0] and [1.0] *)
Definition f95_5 : PyFloat.float := PyFloat.of_scaled 191 (-1).
Definition f5 : PyFloat.float := PyFloat.of_Z 5.
Definition f3 : PyFloat.float := PyFloat.of_Z 3.
Definition f1 : PyFloat.float := PyFloat.of_Z 1.

(** The store after [ann] has added [5.0] and [bob] has added [95.5]. *)
Definition two_scores : store :=
  leaderboards
    (after (benchmark_add as_bob "cpu" f95_5
              (after (benchmark_add as_ann "cpu" f5 init)))).

(** The store after [ann] has added [nan] and [bob] has added [1.0]. *)
Definition nan_scores : store :=
  leaderboards
    (after (benchmark_add as_bob "cpu" f1
              (after (benchmark_add as_ann "cpu" PyFloat.nan init)))).

(** An empty store in front of a durable store whose next write fails. *)
Definition failing_disk : world :=
  {| leaderboards := []; faults := [true]; trace := [] |}.


(* ------------------------------------------------------------------ *)
(** *** Command sequences and the durable copy *)

(** One invocation of a command of the cog. *)
Inductive command : Type :=
| Add (ctx : Context) (benchmark_type : string) (score : PyFloat.float)
| View (bot : Bot) (benchmark_type : string)
| Types
| DeleteCmd (benchmark_type : string) (user : option discord.User)
| HistoryCmd (ctx : Context) (user : option discord.User)
| LeaderboardCmd (bot : Bot).

Definition run_command (cmd : command) : M unit :=
  match cmd with
  | Add ctx benchmark_type score => benchmark_add ctx benchmark_type score
  | View bot benchmark_type => benchmark_view bot benchmark_type
  | Types => benchmark_types
  | DeleteCmd benchmark_type user => benchmark_delete benchmark_type user
  | HistoryCmd ctx user => benchmark_history ctx user
  | LeaderboardCmd bot => benchmark_leaderboard bot
  end.

(** Commands invoked one after the other; a command that raised does
    not stop the next one. *)
Fixpoint run_commands (cmds : list command) (w : world) : world :=
  match cmds with
  | [] => w
  | cmd :: rest => run_commands rest (after (run_command cmd w))
  end.


(** The command changed nothing and sent one message. *)
Definition only_replies (w : world) (r : result unit * world) : Prop :=
  outcome r = Ret tt /\
  leaderboards (after r) = leaderboards w /\
  faults (after r) = faults w /\
  exists m, trace (after r) = trace w ++ [Send m].

(* ------------------------------------------------------------------ *)
(** *** Rendering *)

(** The field that [benchmark view] adds for one ranked entry, if any. *)
Definition view_field (bot : Bot) (it : Z * (Z * PyFloat.float))
  : list (text * text) :=
  let '(rank, (user_id, score)) := it in
  match fetch_user bot user_id with
  | Some user =>
      [([Int rank; Str ". "; Str (discord.name user)],
        [Str "Score: "; Flt score])]
  | None => []
  end.

(** The rank a rendered line starts with. *)
Definition shown_rank (line : text) : option Z :=
  match line with
  | Int rank :: _ => Some rank
  | _ => None
  end.

(** [a == b] on floats. *)
Definition float_eqb (a b : PyFloat.float) : bool := SFeqb a b.

(** The entries of a ranking whose score equals [v]. *)
Definition with_score (v : PyFloat.float) (l : list (Z * PyFloat.float))
  : list (Z * PyFloat.float) :=
  filter (fun it => float_eqb v (snd it)) l.

(** The score of a user in a category, as an item of [History]. *)
Definition history_item (user_id : Z) (it : string * Dict.dict Z PyFloat.float)
  : list (string * PyFloat.float) :=
  match Dict.get (snd it) user_id with
  | Some s => [(fst it, s)]
  | None => []
  end.

(* ================================================================== *)
(** * Properties *)

(** ** Floats *)

Lemma SFcompare_rank (a b : PyFloat.float) :
  PyFloat.is_nan a = false -> PyFloat.is_nan b = false ->
  SFcompare a b = Some (lex_compare (rank a) (rank b)).
Proof.
  destruct a as [sa|sa| |sa ma ea], b as [sb|sb| |sb mb eb];
    simpl; try discriminate; intros _ _;
    try (destruct sa); try (destruct sb); try reflexivity.
  - unfold lex_compare. rewrite Z.compare_refl, Z.compare_opp.
    destruct (Z.compare_spec ea eb) as [E|L|G].
    + subst. rewrite Z.compare_refl. reflexivity.
    + rewrite (proj2 (Z.compare_gt_iff eb ea)) by lia. reflexivity.
    + rewrite (proj2 (Z.compare_lt_iff eb ea)) by lia. reflexivity.
Qed.

Ltac lex_cases :=
  unfold lex_compare;
  repeat match goal with
         | p : (Z * Z * Z)%type |- _ => destruct p as [[? ?] ?]
         end;
  repeat match goal with
         | |- context [Z.compare ?x ?y] => destruct (Z.compare_spec x y)
         | H : context [Z.compare ?x ?y] |- _ => destruct (Z.compare_spec x y)
         end;
  subst; try discriminate; try congruence; try lia.

Lemma lex_compare_refl (a : Z * Z * Z) : lex_compare a a = Eq.
Proof. lex_cases. Qed.

Lemma lex_compare_antisym (a b : Z * Z * Z) :
  lex_compare b a = CompOpp (lex_compare a b).
Proof. lex_cases; reflexivity. Qed.

Lemma lex_compare_le_trans (a b c : Z * Z * Z) :
  lex_compare a b <> Gt -> lex_compare b c <> Gt -> lex_compare a c <> Gt.
Proof. lex_cases. Qed.

Lemma float_lt_irrefl (a : PyFloat.float) : PyFloat.lt a a = false.
Proof.
  unfold PyFloat.lt, SFltb. destruct (PyFloat.is_nan a) eqn:N.
  - destruct a; try discriminate. reflexivity.
  - rewrite SFcompare_rank, lex_compare_refl by assumption. reflexivity.
Qed.

Lemma float_le_iff (a b : PyFloat.float) :
  PyFloat.is_nan a = false -> PyFloat.is_nan b = false ->
  PyFloat.le a b = true <-> lex_compare (rank a) (rank b) <> Gt.
Proof.
  intros Na Nb. unfold PyFloat.le, SFleb. rewrite SFcompare_rank by assumption.
  destruct (lex_compare (rank a) (rank b)); split; congruence.
Qed.

Lemma float_lt_iff (a b : PyFloat.float) :
  PyFloat.is_nan a = false -> PyFloat.is_nan b = false ->
  PyFloat.lt a b = true <-> lex_compare (rank a) (rank b) = Lt.
Proof.
  intros Na Nb. unfold PyFloat.lt, SFltb. rewrite SFcompare_rank by assumption.
  destruct (lex_compare (rank a) (rank b)); split; congruence.
Qed.

Lemma float_le_refl (a : PyFloat.float) : PyFloat.is_nan a = false -> PyFloat.le a a = true.
Proof. intros N. apply float_le_iff; trivial. rewrite lex_compare_refl. discriminate. Qed.

Lemma float_le_trans (a b c : PyFloat.float) :
  PyFloat.is_nan a = false -> PyFloat.is_nan b = false -> PyFloat.is_nan c = false ->
  PyFloat.le a b = true -> PyFloat.le b c = true -> PyFloat.le a c = true.
Proof.
  intros Na Nb Nc. rewrite !float_le_iff by assumption. apply lex_compare_le_trans.
Qed.

Lemma float_not_lt_le (a b : PyFloat.float) :
  PyFloat.is_nan a = false -> PyFloat.is_nan b = false ->
  PyFloat.lt a b = false -> PyFloat.le b a = true.
Proof.
  intros Na Nb L. apply float_le_iff; trivial.
  rewrite lex_compare_antisym. intros E.
  assert (lex_compare (rank a) (rank b) = Lt) as E'
    by (destruct (lex_compare (rank a) (rank b)); simpl in E; congruence).
  apply float_lt_iff in E'; trivial. congruence.
Qed.

Lemma float_lt_le (a b : PyFloat.float) : PyFloat.lt a b = true -> PyFloat.le a b = true.
Proof.
  unfold PyFloat.lt, PyFloat.le, SFltb, SFleb. destruct (SFcompare a b) as [[]|]; congruence.
Qed.

Lemma float_lt_not_nan (a b : PyFloat.float) :
  PyFloat.lt a b = true -> PyFloat.is_nan a = false /\ PyFloat.is_nan b = false.
Proof.
  unfold PyFloat.lt, SFltb. destruct a, b; simpl; try discriminate; auto.
Qed.

Lemma float_le_not_nan (a b : PyFloat.float) :
  PyFloat.le a b = true -> PyFloat.is_nan a = false /\ PyFloat.is_nan b = false.
Proof.
  unfold PyFloat.le, SFleb. destruct a, b; simpl; try discriminate; auto.
Qed.

(** ** Dictionaries *)

Section DictFacts.
Context {K V : Type} `{Key K}.
Implicit Types (d : Dict.dict K V) (k : K) (v : V).

Lemma key_eqb_refl k : key_eqb k k = true.
Proof. now apply key_eqb_eq. Qed.

Lemma key_eqb_neq k k' : k <> k' -> key_eqb k k' = false.
Proof.
  intros N. destruct (key_eqb k k') eqn:E; trivial.
  apply key_eqb_eq in E. contradiction.
Qed.

Lemma key_eq_dec k k' : {k = k'} + {k <> k'}.
Proof.
  destruct (key_eqb k k') eqn:E.
  - left. now apply key_eqb_eq.
  - right. intros ->. rewrite key_eqb_refl in E. discriminate.
Qed.

Lemma dict_get_set_same d k v : Dict.get (Dict.set d k v) k = Some v.
Proof.
  induction d as [|[k' v'] d IH]; simpl.
  - now rewrite key_eqb_refl.
  - destruct (key_eqb k k') eqn:E; simpl; rewrite E; auto.
Qed.

Lemma dict_get_set_other d k k' v :
  k <> k' -> Dict.get (Dict.set d k v) k' = Dict.get d k'.
Proof.
  intros N. induction d as [|[k0 v0] d IH]; simpl.
  - rewrite key_eqb_neq; auto.
  - destruct (key_eqb k k0) eqn:E; simpl.
    + apply key_eqb_eq in E. subst k0. rewrite key_eqb_neq; auto.
    + now rewrite IH.
Qed.

Lemma dict_set_set d k v v' : Dict.set (Dict.set d k v) k v' = Dict.set d k v'.
Proof.
  induction d as [|[k0 v0] d IH]; simpl.
  - now rewrite key_eqb_refl.
  - destruct (key_eqb k k0) eqn:E; simpl; rewrite E; congruence.
Qed.

Lemma dict_get_None_notin d k : Dict.get d k = None <-> ~ In k (Dict.keys d).
Proof.
  induction d as [|[k0 v0] d IH]; simpl.
  - tauto.
  - destruct (key_eqb k k0) eqn:E.
    + apply key_eqb_eq in E. split; [discriminate | intros N; exfalso; auto].
    + rewrite IH. split.
      * intros N [->|I]; [rewrite key_eqb_refl in E; discriminate | auto].
      * tauto.
Qed.

Lemma dict_get_Some_in d k v : Dict.get d k = Some v -> In (k, v) d.
Proof.
  induction d as [|[k0 v0] d IH]; simpl; [discriminate|].
  destruct (key_eqb k k0) eqn:E.
  - apply key_eqb_eq in E. intros [= ->]. subst. auto.
  - auto.
Qed.

Lemma dict_in_get d k v : Dict.wf d -> In (k, v) d -> Dict.get d k = Some v.
Proof.
  unfold Dict.wf. induction d as [|[k0 v0] d IH]; simpl; [tauto|].
  intros W [E|I].
  - injection E as -> ->. now rewrite key_eqb_refl.
  - inversion W as [|? ? N W']; subst.
    rewrite key_eqb_neq; auto.
    intros ->. apply N. change (In k0 (map fst d)). apply in_map_iff.
    now exists (k0, v).
Qed.

Lemma dict_keys_set_present d k v :
  Dict.mem k d = true -> Dict.keys (Dict.set d k v) = Dict.keys d.
Proof.
  unfold Dict.mem. induction d as [|[k0 v0] d IH]; simpl; [discriminate|].
  destruct (key_eqb k k0) eqn:E; simpl; [reflexivity|].
  intros M. now rewrite IH.
Qed.

Lemma dict_set_absent d k v :
  Dict.get d k = None -> Dict.set d k v = d ++ [(k, v)].
Proof.
  induction d as [|[k0 v0] d IH]; simpl; [reflexivity|].
  destruct (key_eqb k k0); [discriminate|]. intros G. now rewrite IH.
Qed.

Lemma dict_length_set_present d k v :
  Dict.mem k d = true -> List.length (Dict.set d k v) = List.length d.
Proof.
  intros M. rewrite <- (List.length_map fst), <- (List.length_map fst d).
  change (List.length (Dict.keys (Dict.set d k v)) = List.length (Dict.keys d)).
  now rewrite dict_keys_set_present.
Qed.

Lemma dict_wf_set d k v : Dict.wf d -> Dict.wf (Dict.set d k v).
Proof.
  unfold Dict.wf. destruct (Dict.get d k) eqn:G.
  - rewrite dict_keys_set_present; [trivial | unfold Dict.mem; now rewrite G].
  - rewrite dict_set_absent by assumption. unfold Dict.keys.
    rewrite map_app. simpl. intros W.
    apply NoDup_app; [ assumption | repeat constructor; simpl; tauto | ].
    intros a I [<-|[]]. now apply dict_get_None_notin in G.
Qed.

Lemma dict_del_mem d k :
  Dict.mem k d = true -> exists d', Dict.del d k = Some d'.
Proof.
  unfold Dict.mem. induction d as [|[k0 v0] d IH]; simpl; [discriminate|].
  destruct (key_eqb k k0); [eauto|].
  intros M. destruct (IH M) as [d' ->]. eauto.
Qed.

Lemma dict_del_get_other d d' k k' :
  Dict.del d k = Some d' -> k <> k' -> Dict.get d' k' = Dict.get d k'.
Proof.
  revert d'. induction d as [|[k0 v0] d IH]; simpl; [discriminate|].
  intros d' D N. destruct (key_eqb k k0) eqn:E.
  - injection D as <-. apply key_eqb_eq in E. subst k0.
    rewrite key_eqb_neq; auto.
  - destruct (Dict.del d k) as [r|]; [|discriminate].
    injection D as <-. simpl. now rewrite (IH r).
Qed.

Lemma dict_del_keys d d' k :
  Dict.del d k = Some d' -> forall x, In x (Dict.keys d') -> In x (Dict.keys d).
Proof.
  revert d'. induction d as [|[k0 v0] d IH]; simpl; [discriminate|].
  intros d' D x. destruct (key_eqb k k0).
  - injection D as <-. auto.
  - destruct (Dict.del d k) as [r|]; [|discriminate].
    injection D as <-. simpl. intros [E|I]; eauto.
Qed.

Lemma dict_del_get_same d d' k :
  Dict.wf d -> Dict.del d k = Some d' -> Dict.get d' k = None.
Proof.
  unfold Dict.wf. revert d'. induction d as [|[k0 v0] d IH]; simpl; [discriminate|].
  intros d' W D. inversion W as [|? ? N W']; subst.
  destruct (key_eqb k k0) eqn:E.
  - injection D as <-. apply key_eqb_eq in E. subst k0.
    now apply dict_get_None_notin.
  - destruct (Dict.del d k) as [r|]; [|discriminate].
    injection D as <-. simpl. rewrite E. eauto.
Qed.

Lemma dict_wf_del d d' k : Dict.wf d -> Dict.del d k = Some d' -> Dict.wf d'.
Proof.
  unfold Dict.wf. revert d'. induction d as [|[k0 v0] d IH]; simpl; [discriminate|].
  intros d' W D. inversion W as [|? ? N W']; subst.
  destruct (key_eqb k k0).
  - now injection D as <-.
  - destruct (Dict.del d k) as [r|] eqn:R; [|discriminate].
    injection D as <-. simpl. constructor; eauto.
    intros I. apply N. eapply dict_del_keys; eauto.
Qed.
End DictFacts.

(** ** Sorting *)

Section SortFacts.
Context {A B : Type} (key : A -> B) (lt : B -> B -> bool).

Lemma insert_perm (x : A) (l : list A) :
  Permutation (PySort.insert key lt x l) (x :: l).
Proof.
  induction l as [|y l IH]; simpl; [reflexivity|].
  destruct (lt (key x) (key y)); [reflexivity|].
  rewrite IH. apply perm_swap.
Qed.

Lemma fold_insert_perm (l acc : list A) :
  Permutation (fold_left (fun a x => PySort.insert key lt x a) l acc) (l ++ acc).
Proof.
  revert acc. induction l as [|x l IH]; intros acc; simpl; [reflexivity|].
  rewrite IH, insert_perm. symmetry. apply Permutation_middle.
Qed.

Lemma sorted_perm (reverse : bool) (l : list A) :
  Permutation (PySort.sorted key lt reverse l) l.
Proof.
  unfold PySort.sorted, PySort.stable_sort. destruct reverse.
  - rewrite <- Permutation_rev, fold_insert_perm, app_nil_r.
    symmetry. apply Permutation_rev.
  - now rewrite fold_insert_perm, app_nil_r.
Qed.

Lemma sorted_length (reverse : bool) (l : list A) :
  List.length (PySort.sorted key lt reverse l) = List.length l.
Proof. apply Permutation_length, sorted_perm. Qed.

(** Sortedness, for the elements [P] on which [lt] is a total preorder:
    [R x y] reads "[x] may stand before [y] in ascending order". *)
Context (P : A -> Prop) (R : A -> A -> Prop).
Hypothesis lt_R : forall x y, P x -> P y -> lt (key x) (key y) = true -> R x y.
Hypothesis nlt_R : forall x y, P x -> P y -> lt (key x) (key y) = false -> R y x.
Hypothesis R_trans : forall x y z, P x -> P y -> P z -> R x y -> R y z -> R x z.

Lemma insert_sorted (x : A) (l : list A) :
  P x -> Forall P l -> StronglySorted R l ->
  StronglySorted R (PySort.insert key lt x l).
Proof.
  intros Px Pl S. induction S as [|y l S IH F]; simpl.
  - repeat constructor.
  - inversion Pl as [|? ? Py Pl']; subst.
    destruct (lt (key x) (key y)) eqn:L.
    + constructor; [now constructor|].
      constructor; [now apply lt_R|].
      rewrite Forall_forall in *. intros z Iz.
      apply (R_trans x y z); auto.
    + constructor; [auto|].
      eapply Permutation_Forall; [symmetry; apply insert_perm|].
      constructor; [now apply nlt_R | assumption].
Qed.

Lemma fold_insert_sorted (l acc : list A) :
  Forall P l -> Forall P acc -> StronglySorted R acc ->
  StronglySorted R (fold_left (fun a x => PySort.insert key lt x a) l acc).
Proof.
  revert acc. induction l as [|x l IH]; intros acc Pl Pa S; simpl; [assumption|].
  inversion Pl; subst. apply IH; trivial.
  - eapply Permutation_Forall; [symmetry; apply insert_perm|]. now constructor.
  - now apply insert_sorted.
Qed.

Lemma stable_sort_sorted (l : list A) :
  Forall P l -> StronglySorted R (PySort.stable_sort key lt l).
Proof.
  intros Pl. apply fold_insert_sorted; auto. constructor.
Qed.
End SortFacts.

Section SortedLists.
Context {A : Type} (R : A -> A -> Prop).

Lemma StronglySorted_snoc (l : list A) (x : A) :
  StronglySorted R l -> Forall (fun y => R y x) l -> StronglySorted R (l ++ [x]).
Proof.
  induction 1 as [|y l S IH F]; simpl; intros Fx.
  - repeat constructor.
  - inversion Fx; subst. constructor; [auto|].
    apply Forall_app. split; [assumption | now repeat constructor].
Qed.

Lemma StronglySorted_rev (l : list A) :
  StronglySorted (fun x y => R y x) l -> StronglySorted R (rev l).
Proof.
  induction 1 as [|x l S IH F]; simpl; [constructor|].
  apply StronglySorted_snoc; [assumption|]. now apply Forall_rev.
Qed.

Lemma StronglySorted_firstn (n : nat) (l : list A) :
  StronglySorted R l -> StronglySorted R (firstn n l).
Proof.
  intros S. revert n. induction S as [|x l S IH F]; intros [|n]; simpl;
    try constructor; auto.
  rewrite Forall_forall in *. intros y I. apply F.
  rewrite <- (firstn_skipn n l). apply in_or_app. now left.
Qed.
End SortedLists.

(** ** The commands, run *)

Ltac run_monad :=
  unfold bind, get_leaderboards, set_leaderboards, ret, getitem, delitem, send;
  simpl.

Lemma persist_then_send_run (m : message) (w : world) :
  (config_set ;;; send m) w =
  if hd false (faults w)
  then (Raise ConfigError,
        {| leaderboards := leaderboards w; faults := tl (faults w);
           trace := trace w ++ [ConfigSet (leaderboards w) false] |})
  else (Ret tt,
        {| leaderboards := leaderboards w; faults := tl (faults w);
           trace := trace w ++ [ConfigSet (leaderboards w) true; Send m] |}).
Proof.
  unfold bind, config_set, send, emit.
  destruct (faults w) as [|[] fs]; simpl; rewrite <- ?app_assoc; reflexivity.
Qed.

Lemma mem_get_Some {K V : Type} `{Key K} (d : Dict.dict K V) (k : K) (v : V) :
  Dict.get d k = Some v -> Dict.mem k d = true.
Proof. unfold Dict.mem. now intros ->. Qed.

Lemma mem_get_None {K V : Type} `{Key K} (d : Dict.dict K V) (k : K) :
  Dict.get d k = None -> Dict.mem k d = false.
Proof. unfold Dict.mem. now intros ->. Qed.

Lemma benchmark_add_run (ctx : Context) (c : string) (s : PyFloat.float)
  (w : world) :
  let u := discord.id (author ctx) in
  let prior := Get (leaderboards w) c u in
  let stored :=
    (config_set ;;; send (Content (add_response c prior s)))
      (with_store w (put_store (leaderboards w) c u s)) in
  benchmark_add ctx c s w =
  match prior with
  | None => stored
  | Some p =>
      if PyFloat.gt s p then stored
      else (Ret tt, emit (Send (Content (not_updated_response prior c))) w)
  end.
Proof.
  intros u prior stored. subst stored prior u.
  unfold benchmark_add, Get, put_store, with_store.
  destruct (Dict.get (leaderboards w) c) as [scores|] eqn:G.
  - run_monad. rewrite (mem_get_Some _ _ _ G). simpl. rewrite G.
    destruct (Dict.get scores (discord.id (author ctx))) as [p|] eqn:P.
    + destruct (PyFloat.gt s p); reflexivity.
    + reflexivity.
  - run_monad. rewrite (mem_get_None _ _ G). simpl.
    rewrite dict_get_set_same. simpl. rewrite dict_set_set. reflexivity.
Qed.

Lemma benchmark_delete_run (c : string) (user : option discord.User) (w : world) :
  benchmark_delete c user w =
  match Dict.get (leaderboards w) c with
  | None => (Ret tt, emit (Send (no_leaderboard_found c)) w)
  | Some scores =>
      match user with
      | Some user =>
          match Dict.get scores (discord.id user), Dict.del scores (discord.id user) with
          | Some _, Some scores' =>
              (config_set ;;;
               send (Content [Str "Deleted "; Str (discord.name user);
                              Str "'s score for "; Str c; Str " benchmark"]))
                (with_store w (Dict.set (leaderboards w) c scores'))
          | _, _ =>
              (Ret tt,
               emit (Send (Content [Str (discord.name user);
                                    Str " has no score for "; Str c;
                                    Str " benchmark"])) w)
          end
      | None =>
          match Dict.del (leaderboards w) c with
          | Some lbs' =>
              (config_set ;;;
               send (Content [Str "Deleted entire "; Str c;
                              Str " benchmark leaderboard"]))
                (with_store w lbs')
          | None => (Raise KeyError, w)
          end
      end
  end.
Proof.
  unfold benchmark_delete, with_store.
  destruct (Dict.get (leaderboards w) c) as [scores|] eqn:G.
  - run_monad. rewrite (mem_get_Some _ _ _ G). simpl. destruct user as [user|].
    + rewrite G. unfold Dict.mem.
      destruct (Dict.get scores (discord.id user)) as [p|] eqn:P; [|reflexivity].
      destruct (dict_del_mem scores (discord.id user)) as [scores' D];
        [now apply mem_get_Some with p|].
      rewrite D. reflexivity.
    + destruct (Dict.del (leaderboards w) c); reflexivity.
  - run_monad. rewrite (mem_get_None _ _ G). reflexivity.
Qed.

(** ** Put *)

Lemma Get_put_store_same (lbs : store) (c : string) (u : Z) (s : PyFloat.float) :
  Get (put_store lbs c u s) c u = Some s.
Proof.
  unfold Get, put_store. rewrite dict_get_set_same. apply dict_get_set_same.
Qed.

Lemma Get_put_store_other (lbs : store) (c c' : string) (u u' : Z)
  (s : PyFloat.float) :
  (c, u) <> (c', u') -> Get (put_store lbs c u s) c' u' = Get lbs c' u'.
Proof.
  intros N. unfold Get, put_store.
  destruct (string_dec c c') as [<-|Nc].
  - rewrite dict_get_set_same.
    rewrite dict_get_set_other by congruence.
    now destruct (Dict.get lbs c).
  - now rewrite dict_get_set_other.
Qed.

Lemma add_stored (ctx : Context) (c : string) (s : PyFloat.float) (w : world) :
  let u := discord.id (author ctx) in
  benchmark_add ctx c s w =
    (config_set ;;; send (Content (add_response c (Get (leaderboards w) c u) s)))
      (with_store w (put_store (leaderboards w) c u s)) ->
  add_accepted ctx c s w.
Proof.
  intros u E. unfold add_accepted. rewrite E, persist_then_send_run.
  fold u. unfold with_store. simpl.
  destruct (hd false (faults w)); simpl.
  - split; [apply Get_put_store_same|]. exists false. auto.
  - split; [apply Get_put_store_same|]. exists true. auto.
Qed.

Lemma add_cases (ctx : Context) (c : string) (s : PyFloat.float) (w : world) :
  let prior := Get (leaderboards w) c (discord.id (author ctx)) in
  (exceeds_prior prior s /\ add_accepted ctx c s w) \/
  (~ exceeds_prior prior s /\ add_rejected ctx c s w).
Proof.
  intros prior. subst prior.
  pose proof (benchmark_add_run ctx c s w) as R. simpl in R.
  pose proof (add_stored ctx c s w) as St. simpl in St.
  unfold exceeds_prior, add_rejected.
  destruct (Get (leaderboards w) c (discord.id (author ctx))) as [p|] eqn:P.
  - destruct (PyFloat.gt s p) eqn:G.
    + left. split; [right; eauto|]. auto.
    + right. split.
      * intros [?|(q & [= <-] & ?)]; congruence.
      * rewrite R. simpl. auto.
  - left. split; [now left|]. auto.
Qed.

Lemma add_accepted_not_rejected (ctx : Context) (c : string)
  (s : PyFloat.float) (w : world) :
  add_accepted ctx c s w -> add_rejected ctx c s w -> False.
Proof.
  intros (_ & ok & T & _) (_ & _ & T' & _). rewrite T in T'.
  apply app_inv_head in T'. discriminate.
Qed.

(** C1: [benchmark add] is accepted, and then stores the score, exactly
    when the user has no prior entry in the category or the score
    strictly exceeds the prior one; otherwise it is rejected, the store
    is unchanged and no durable write is attempted.  A score equal to
    the stored one is rejected. *)
Theorem put_accepted_iff_exceeds (ctx : Context) (c : string)
  (s : PyFloat.float) (w : world) :
  let prior := Get (leaderboards w) c (discord.id (author ctx)) in
  (add_accepted ctx c s w <-> exceeds_prior prior s) /\
  (add_rejected ctx c s w <-> ~ exceeds_prior prior s) /\
  (prior = Some s -> add_rejected ctx c s w).
Proof.
  intros prior. pose proof (add_cases ctx c s w) as C. fold prior in C.
  pose proof (add_accepted_not_rejected ctx c s w) as X.
  split; [split | split; [split|]].
  - intros A. destruct C as [[E _]|[_ Rj]]; [assumption | contradiction (X A Rj)].
  - intros E. destruct C as [[_ A]|[N _]]; [assumption | contradiction].
  - intros Rj E. destruct C as [[_ A]|[N _]]; [contradiction (X A Rj) | contradiction].
  - intros N. destruct C as [[E _]|[_ Rj]]; [contradiction | assumption].
  - intros P. destruct C as [[E _]|[_ Rj]]; [|assumption].
    destruct E as [E|(p & E & G)]; [congruence|].
    rewrite P in E. injection E as <-.
    unfold PyFloat.gt in G. fold (PyFloat.lt s s) in G.
    rewrite float_lt_irrefl in G. discriminate.
Qed.

Lemma Get_after_add (ctx : Context) (c : string) (s : PyFloat.float) (w : world) :
  let u := discord.id (author ctx) in
  Get (leaderboards (after (benchmark_add ctx c s w))) c u =
  Some match Get (leaderboards w) c u with
       | None => s
       | Some p => if PyFloat.gt s p then s else p
       end.
Proof.
  intros u. subst u.
  destruct (add_cases ctx c s w) as [[E (A & _)]|[N (L & _)]].
  - rewrite A. destruct E as [->|(p & -> & ->)]; reflexivity.
  - rewrite L. unfold exceeds_prior in N.
    destruct (Get (leaderboards w) c (discord.id (author ctx))) as [p|];
      [|exfalso; apply N; now left].
    destruct (PyFloat.gt s p) eqn:G; [|reflexivity].
    exfalso. apply N. right. eauto.
Qed.

Lemma is_maximum_snoc (m s : PyFloat.float) (seen : list PyFloat.float) :
  is_maximum m seen -> no_nan seen -> PyFloat.is_nan s = false ->
  is_maximum (if PyFloat.gt s m then s else m) (seen ++ [s]).
Proof.
  intros [I F] Ns N. unfold is_maximum, no_nan in *.
  assert (PyFloat.is_nan m = false) as Nm
    by (rewrite Forall_forall in Ns; auto).
  unfold PyFloat.gt. fold (PyFloat.lt m s).
  destruct (PyFloat.lt m s) eqn:L.
  - split; [apply in_or_app; right; now left|].
    apply Forall_app. split.
    + rewrite Forall_forall in *. intros x Ix.
      apply float_le_trans with m; auto. now apply float_lt_le.
    + repeat constructor. now apply float_le_refl.
  - split; [apply in_or_app; now left|].
    apply Forall_app. split; [assumption|].
    repeat constructor. now apply float_not_lt_le.
Qed.

Lemma run_adds_maximum (ctx : Context) (c : string) (rest : list PyFloat.float) :
  forall (w : world) (m : PyFloat.float) (seen : list PyFloat.float),
    Get (leaderboards w) c (discord.id (author ctx)) = Some m ->
    is_maximum m seen -> no_nan seen -> no_nan rest ->
    exists m',
      Get (leaderboards (run_adds ctx c rest w)) c (discord.id (author ctx))
        = Some m' /\
      is_maximum m' (seen ++ rest).
Proof.
  induction rest as [|s rest IH]; intros w m seen G Mx Ns Nr; simpl.
  - exists m. now rewrite app_nil_r.
  - inversion Nr as [|? ? N Nr']; subst.
    pose proof (Get_after_add ctx c s w) as G'. simpl in G'. rewrite G in G'.
    destruct (IH _ _ (seen ++ [s]) G') as (m' & Gm & Mm); trivial.
    + now apply is_maximum_snoc.
    + apply Forall_app. split; [assumption | now repeat constructor].
    + exists m'. now rewrite <- app_assoc in Mm.
Qed.

(** Starting with no entry for the user in the category, after any
    non-empty sequence of [benchmark add] calls whose scores are not
    [nan], [Get] returns the maximum score submitted; [5] then [3]
    leaves [5] and the second call is rejected. *)
Theorem put_sequence_maximum (ctx : Context) (c : string)
  (scores : list PyFloat.float) (w : world)
  (Habsent : Get (leaderboards w) c (discord.id (author ctx)) = None)
  (Hne : scores <> [])
  (Hnan : no_nan scores) :
  get_is_maximum ctx c scores w /\
  (Get (leaderboards (run_adds ctx c [f5; f3] w)) c (discord.id (author ctx))
     = Some f5 /\
   add_rejected ctx c f3 (after (benchmark_add ctx c f5 w))).
Proof.
  split.
  - destruct scores as [|s rest]; [congruence|].
    inversion Hnan as [|? ? N Nr]; subst. unfold get_is_maximum. simpl.
    pose proof (Get_after_add ctx c s w) as G. simpl in G. rewrite Habsent in G.
    apply (run_adds_maximum ctx c rest _ s [s]); trivial.
    + split; [now left|]. repeat constructor. now apply float_le_refl.
    + now repeat constructor.
  - pose proof (Get_after_add ctx c f5 w) as G1. simpl in G1.
    rewrite Habsent in G1.
    pose proof (Get_after_add ctx c f3 (after (benchmark_add ctx c f5 w))) as G2.
    simpl in G2. rewrite G1 in G2. split; [exact G2|].
    destruct (add_cases ctx c f3 (after (benchmark_add ctx c f5 w)))
      as [[E _]|[_ Rj]]; [|exact Rj].
    rewrite G1 in E. destruct E as [E|(p & [= <-] & E)]; discriminate.
Qed.

Lemma put_sequence_maximum_example :
  get_is_maximum as_ann "cpu" [f5; f3] init /\
  (Get (leaderboards (run_adds as_ann "cpu" [f5; f3] init)) "cpu" 1 = Some f5 /\
   add_rejected as_ann "cpu" f3 (after (benchmark_add as_ann "cpu" f5 init))).
Proof.
  apply (put_sequence_maximum as_ann "cpu" [f5; f3] init).
  - reflexivity.
  - discriminate.
  - repeat constructor.
Defined.

(** Once [nan] is stored for a user, no later score of that user is
    ever accepted: [score > nan] is false for every score. *)
Lemma nan_entry_never_improves (ctx : Context) (c : string)
  (scores : list PyFloat.float) :
  forall w : world,
    Get (leaderboards w) c (discord.id (author ctx)) = Some PyFloat.nan ->
    Get (leaderboards (run_adds ctx c scores w)) c (discord.id (author ctx))
      = Some PyFloat.nan.
Proof.
  induction scores as [|s scores IH]; intros w G; simpl; [assumption|].
  apply IH. pose proof (Get_after_add ctx c s w) as G'. simpl in G'.
  rewrite G in G'. rewrite G'. unfold PyFloat.gt, PyFloat.nan, SFltb.
  reflexivity.
Qed.

(** C2: after a sequence of Put calls [Get] is to return the maximum
    score submitted; [benchmark add] breaks this when [nan] is
    submitted first: [nan] is stored, [5] is then rejected, and [Get]
    returns [nan], which is not the maximum of the scores submitted. *)
Lemma put_sequence_nan_not_maximum :
  Get (leaderboards (run_adds as_ann "cpu" [PyFloat.nan; f5] init)) "cpu" 1
    = Some PyFloat.nan /\
  add_rejected as_ann "cpu" f5
    (after (benchmark_add as_ann "cpu" PyFloat.nan init)) /\
  ~ get_is_maximum as_ann "cpu" [PyFloat.nan; f5] init.
Proof.
  split; [reflexivity|]. split; [unfold add_rejected; repeat split|].
  intros (m & G & _ & F).
  vm_compute in G. injection G as <-.
  inversion F as [|? ? L _]. discriminate L.
Qed.

(** ** Mutations and the durable write *)

Lemma dict_del_length {K V : Type} `{Key K} (d d' : Dict.dict K V) (k : K) :
  Dict.del d k = Some d' -> List.length d = S (List.length d').
Proof.
  revert d'. induction d as [|[k0 v0] d IH]; simpl; [discriminate|].
  intros d' D. destruct (key_eqb k k0).
  - now injection D as <-.
  - destruct (Dict.del d k) as [r|]; [|discriminate].
    injection D as <-. simpl. now rewrite (IH r).
Qed.

Lemma persist_then_send_ack (m : message) (w w1 : world) :
  faults w1 = faults w -> trace w1 = trace w ->
  write_then_acknowledge w ((config_set ;;; send m) w1) /\
  leaderboards (after ((config_set ;;; send m) w1)) = leaderboards w1.
Proof.
  intros F T. rewrite persist_then_send_run. unfold write_then_acknowledge.
  rewrite F, T. destruct (hd false (faults w)); simpl; eauto.
Qed.

(** C3, amended: every mutation (an accepted [benchmark add], the
    deletion of an existing entry, the deletion of an existing category)
    attempts one durable write of the whole store, as mutated, and
    replies only behind a write that went through; when the write fails
    the command raises and sends nothing, and the in-memory store keeps
    the mutation. *)
Theorem mutation_write_then_acknowledge (mu : mutation) (w : world)
  (Happ : applies mu (leaderboards w) = true) :
  let r := run_mutation mu w in
  write_then_acknowledge w r /\ leaderboards (after r) <> leaderboards w.
Proof.
  destruct mu as [ctx c s|c user|c]; simpl in *.
  - pose proof (benchmark_add_run ctx c s w) as R. simpl in R.
    assert (benchmark_add ctx c s w =
            (config_set ;;; send (Content (add_response c
               (Get (leaderboards w) c (discord.id (author ctx))) s)))
              (with_store w (put_store (leaderboards w) c
                               (discord.id (author ctx)) s))) as E.
    { rewrite R. destruct (Get (leaderboards w) c (discord.id (author ctx)));
        [now rewrite Happ | reflexivity]. }
    rewrite E.
    destruct (persist_then_send_ack
                (Content (add_response c
                   (Get (leaderboards w) c (discord.id (author ctx))) s)) w
                (with_store w (put_store (leaderboards w) c
                                 (discord.id (author ctx)) s)))
      as [A ->]; trivial.
    split; [exact A|]. simpl. intros Q.
    pose proof (Get_put_store_same (leaderboards w) c
                  (discord.id (author ctx)) s) as G.
    rewrite Q in G. rewrite G in Happ.
    unfold PyFloat.gt in Happ. fold (PyFloat.lt s s) in Happ.
    rewrite float_lt_irrefl in Happ. discriminate.
  - rewrite benchmark_delete_run. unfold Get in Happ.
    destruct (Dict.get (leaderboards w) c) as [scores|] eqn:G; [|discriminate].
    destruct (Dict.get scores (discord.id user)) as [p|] eqn:P; [|discriminate].
    destruct (dict_del_mem scores (discord.id user)) as [scores' D];
      [now apply mem_get_Some with p|].
    rewrite D.
    match goal with
    | |- context [(config_set ;;; send ?m) ?w1] =>
        destruct (persist_then_send_ack m w w1) as [A ->]; trivial
    end.
    split; [exact A|]. simpl. intros Q.
    pose proof (dict_get_set_same (leaderboards w) c scores') as G'.
    rewrite Q, G in G'. injection G' as ->.
    apply dict_del_length in D. lia.
  - rewrite benchmark_delete_run. unfold Dict.mem in Happ.
    destruct (Dict.get (leaderboards w) c) as [scores|] eqn:G; [|discriminate].
    destruct (dict_del_mem (leaderboards w) c) as [lbs' D];
      [now apply mem_get_Some with scores|].
    rewrite D.
    match goal with
    | |- context [(config_set ;;; send ?m) ?w1] =>
        destruct (persist_then_send_ack m w w1) as [A ->]; trivial
    end.
    split; [exact A|]. simpl. intros Q. rewrite Q in D.
    apply dict_del_length in D. lia.
Qed.

Lemma mutation_write_then_acknowledge_witness :
  let r := run_mutation (Put as_ann "cpu" f95_5) failing_disk in
  write_then_acknowledge failing_disk r /\
  leaderboards (after r) <> leaderboards failing_disk.
Proof.
  apply (mutation_write_then_acknowledge (Put as_ann "cpu" f95_5) failing_disk).
  reflexivity.
Defined.

(** C3, as stated, fails: when the durable write of an accepted
    [benchmark add] fails, the command raises, but the score stays in
    the in-memory store and the write is not tried again. *)
Lemma failed_write_not_rolled_back :
  (let r := benchmark_add as_ann "cpu" f95_5 failing_disk in
   outcome r = Raise ConfigError /\
   leaderboards (after r) = [("cpu"%string, [(1, f95_5)])] /\
   trace (after r) = [ConfigSet [("cpu"%string, [(1, f95_5)])] false]) /\
  ~ failure_contained (Put as_ann "cpu" f95_5) failing_disk.
Proof.
  split; [repeat split|].
  intros C.
  destruct (C [ConfigSet [("cpu"%string, [(1, f95_5)])] false]) as [_ [Q|Q]].
  - reflexivity.
  - now left.
  - discriminate Q.
  - simpl in Q. lia.
Qed.

(** ** Rankings *)

Lemma sorted_scores_non_increasing (scores : Dict.dict Z PyFloat.float) :
  no_nan (map snd scores) -> non_increasing (sorted_scores scores).
Proof.
  intros N. unfold non_increasing, sorted_scores, PySort.sorted, Dict.items.
  apply StronglySorted_rev.
  apply (stable_sort_sorted snd PyFloat.lt
           (fun it => PyFloat.is_nan (snd it) = false)
           (fun x y => PyFloat.le (snd x) (snd y) = true)).
  - intros x y _ _. apply float_lt_le.
  - intros x y Px Py. now apply float_not_lt_le.
  - intros x y z Px Py Pz. now apply float_le_trans.
  - apply Forall_rev. unfold no_nan in N. now rewrite Forall_map in N.
Qed.

Lemma sorted_scores_perm (scores : Dict.dict Z PyFloat.float) :
  Permutation (sorted_scores scores) scores.
Proof. apply sorted_perm. Qed.

Lemma benchmark_view_n_run (n : nat) (bot : Bot) (c : string) (w : world) :
  benchmark_view_n n bot c w =
  (Ret tt,
   emit (Send (if (entries (leaderboards w) c =? 0)%nat
               then no_scores_found c
               else EmbedMsg (fold_left (view_step bot)
                                (enumerate 1 (Top (leaderboards w) c n))
                                (view_embed c)))) w).
Proof.
  unfold benchmark_view_n, entries, Top. run_monad. unfold Dict.mem.
  destruct (Dict.get (leaderboards w) c) as [[|it scores]|]; reflexivity.
Qed.

(** [Top(c, n)] has length exactly [min n] of the number of entries of
    [c], is empty when [c] is absent or has no entries, lists entries of
    [c], and is sorted non-increasing by score provided no score stored
    in [c] is [nan]; [benchmark view] renders [Top(c, 10)]. *)
Theorem top_sorted_and_length (lbs : store) (c : string) (n : nat)
  (Hnan : no_nan (map snd (category_items lbs c))) :
  non_increasing (Top lbs c n) /\
  List.length (Top lbs c n) = Nat.min n (entries lbs c) /\
  (entries lbs c = 0%nat -> Top lbs c n = []) /\
  incl (Top lbs c n) (category_items lbs c) /\
  (forall bot w, leaderboards w = lbs ->
     benchmark_view bot c w =
     (Ret tt,
      emit (Send (if (entries lbs c =? 0)%nat
                  then no_scores_found c
                  else EmbedMsg (fold_left (view_step bot)
                                   (enumerate 1 (Top lbs c 10))
                                   (view_embed c)))) w)).
Proof.
  unfold Top, entries, category_items in *.
  destruct (Dict.get lbs c) as [scores|] eqn:G.
  - split; [|split; [|split; [|split]]].
    + apply StronglySorted_firstn. now apply sorted_scores_non_increasing.
    + rewrite length_firstn.
      now rewrite (Permutation_length (sorted_scores_perm scores)).
    + intros E. destruct scores; [|discriminate]. now destruct n.
    + intros x I. apply (Permutation_in x (sorted_scores_perm scores)).
      rewrite <- (firstn_skipn n (sorted_scores scores)).
      apply in_or_app. now left.
    + intros bot w <-. unfold benchmark_view. rewrite benchmark_view_n_run.
      unfold entries, Top. now rewrite G.
  - split; [|split; [|split; [|split]]].
    + constructor.
    + now rewrite Nat.min_0_r.
    + reflexivity.
    + intros x [].
    + intros bot w <-. unfold benchmark_view. rewrite benchmark_view_n_run.
      unfold entries, Top. now rewrite G.
Qed.

Lemma top_sorted_and_length_example :
  non_increasing (Top two_scores "cpu" 1) /\
  List.length (Top two_scores "cpu" 1) = Nat.min 1 (entries two_scores "cpu") /\
  (entries two_scores "cpu" = 0%nat -> Top two_scores "cpu" 1 = []) /\
  incl (Top two_scores "cpu" 1) (category_items two_scores "cpu") /\
  (forall bot w, leaderboards w = two_scores ->
     benchmark_view bot "cpu" w =
     (Ret tt,
      emit (Send (if (entries two_scores "cpu" =? 0)%nat
                  then no_scores_found "cpu"
                  else EmbedMsg (fold_left (view_step bot)
                                   (enumerate 1 (Top two_scores "cpu" 10))
                                   (view_embed "cpu")))) w)).
Proof.
  apply (top_sorted_and_length two_scores "cpu" 1).
  vm_compute. repeat constructor.
Defined.

(** C4: [Top(c, n)] is to be sorted non-increasing by score;
    [benchmark add] lets a [nan] into the category, and the ranking then
    lists [nan] before [1.0], where [nan >= 1.0] is false. *)
Lemma top_with_nan_not_sorted :
  Top nan_scores "cpu" 10 = [(1, PyFloat.nan); (2, f1)] /\
  ~ non_increasing (Top nan_scores "cpu" 10).
Proof.
  split; [reflexivity|].
  intros S. vm_compute in S. inversion S as [|? ? _ F]. subst.
  inversion F as [|? ? L _]. discriminate L.
Qed.

(** No order of these two entries is non-increasing. *)
Lemma nan_scores_unsortable (l : list (Z * PyFloat.float)) :
  Permutation [(1, PyFloat.nan); (2, f1)] l -> ~ non_increasing l.
Proof.
  intros Pm S. apply Permutation_length_2_inv in Pm.
  destruct Pm as [-> | ->]; inversion S as [|? ? _ F]; subst;
    inversion F as [|? ? L _]; discriminate L.
Qed.

(** ** Deleting *)

(** C5: [benchmark delete] on a category that is not in the store
    replies that no leaderboard was found, leaves the store unchanged
    and attempts no durable write. *)
Theorem delete_absent_category (c : string) (user : option discord.User)
  (w : world) (Habsent : Dict.mem c (leaderboards w) = false) :
  let r := benchmark_delete c user w in
  outcome r = Ret tt /\
  leaderboards (after r) = leaderboards w /\
  faults (after r) = faults w /\
  trace (after r) = trace w ++ [Send (no_leaderboard_found c)].
Proof.
  simpl. rewrite benchmark_delete_run. unfold Dict.mem in Habsent.
  destruct (Dict.get (leaderboards w) c); [discriminate|]. simpl. auto.
Qed.

Lemma delete_absent_category_witness :
  let r := benchmark_delete "cpu" None init in
  outcome r = Ret tt /\
  leaderboards (after r) = leaderboards init /\
  faults (after r) = faults init /\
  trace (after r) = trace init ++ [Send (no_leaderboard_found "cpu")].
Proof.
  apply (delete_absent_category "cpu" None init). reflexivity.
Defined.

Lemma delete_category_store (c : string) (w : world) :
  Dict.mem c (leaderboards w) = true ->
  exists lbs', Dict.del (leaderboards w) c = Some lbs' /\
               leaderboards (after (benchmark_delete c None w)) = lbs'.
Proof.
  intros M. destruct (dict_del_mem _ _ M) as [lbs' D]. exists lbs'.
  split; [assumption|]. rewrite benchmark_delete_run. unfold Dict.mem in M.
  destruct (Dict.get (leaderboards w) c); [|discriminate]. rewrite D.
  rewrite persist_then_send_run. unfold with_store. simpl.
  now destruct (hd false (faults w)).
Qed.

(** C7: after [benchmark delete] has deleted a category of the store,
    [Get] on that category answers Absent for every user, and the
    category is no longer listed. *)
Theorem delete_category_then_get_absent (c : string) (w : world)
  (Hwf : Dict.wf (leaderboards w))
  (Hin : Dict.mem c (leaderboards w) = true) :
  let r := benchmark_delete c None w in
  (forall u, Get (leaderboards (after r)) c u = None) /\
  ~ In c (Categories (leaderboards (after r))).
Proof.
  simpl. destruct (delete_category_store c w Hin) as (lbs' & D & ->).
  pose proof (dict_del_get_same _ _ _ Hwf D) as G.
  split.
  - intros u. unfold Get. now rewrite G.
  - now apply dict_get_None_notin.
Qed.

Lemma delete_category_then_get_absent_witness :
  let r := benchmark_delete "cpu" None (with_store init two_scores) in
  (forall u, Get (leaderboards (after r)) "cpu" u = None) /\
  ~ In "cpu"%string (Categories (leaderboards (after r))).
Proof.
  apply (delete_category_then_get_absent "cpu" (with_store init two_scores)).
  - unfold Dict.wf. vm_compute. repeat constructor. intros [].
  - reflexivity.
Defined.

Lemma benchmark_types_run (w : world) :
  leaderboards w <> [] ->
  benchmark_types w =
  (Ret tt,
   emit (Send (Content (Str "Available benchmark types:" :: Str newline ::
                        join newline (map (fun k => [Str k])
                                        (sorted_types (leaderboards w)))))) w).
Proof.
  intros N. unfold benchmark_types. run_monad.
  destruct (leaderboards w); [congruence | reflexivity].
Qed.

Lemma store_wf_get (lbs : store) (c : string) (scores : Dict.dict Z PyFloat.float) :
  store_wf lbs -> Dict.get lbs c = Some scores -> Dict.wf scores.
Proof.
  intros [_ F] G. apply dict_get_Some_in in G.
  rewrite Forall_forall in F. apply (F _ G).
Qed.

(** C10: [benchmark delete <category> <user>] removes that user's entry
    only and keeps the category key: every other entry is untouched,
    the categories are the same, the category has one entry fewer (none
    when the user was the last one) and is still in the [types] listing. *)
Theorem delete_entry_keeps_category (c : string) (user : discord.User)
  (s : PyFloat.float) (w : world)
  (Hwf : store_wf (leaderboards w))
  (Hget : Get (leaderboards w) c (discord.id user) = Some s) :
  let lbs := leaderboards w in
  let lbs' := leaderboards (after (benchmark_delete c (Some user) w)) in
  Get lbs' c (discord.id user) = None /\
  (forall c' u', (c', u') <> (c, discord.id user) ->
                 Get lbs' c' u' = Get lbs c' u') /\
  Categories lbs' = Categories lbs /\
  In c (Categories lbs') /\
  entries lbs c = S (entries lbs' c) /\
  (entries lbs c = 1%nat -> Dict.get lbs' c = Some []) /\
  In c (sorted_types lbs') /\
  (forall w', leaderboards w' = lbs' ->
     benchmark_types w' =
     (Ret tt,
      emit (Send (Content (Str "Available benchmark types:" :: Str newline ::
                           join newline (map (fun k => [Str k])
                                           (sorted_types lbs'))))) w')).
Proof.
  simpl. rewrite benchmark_delete_run. unfold Get in Hget.
  destruct (Dict.get (leaderboards w) c) as [scores|] eqn:G; [|discriminate].
  rewrite Hget.
  destruct (dict_del_mem scores (discord.id user)) as [scores' D];
    [now apply mem_get_Some with s|].
  rewrite D, persist_then_send_run.
  assert (leaderboards
            (after (if hd false (faults (with_store w (Dict.set (leaderboards w) c scores')))
                    then (Raise ConfigError, _) else (Ret tt, _)))
          = Dict.set (leaderboards w) c scores') as ->
    by (destruct (hd false _); reflexivity).
  pose proof (mem_get_Some _ _ _ G) as M.
  assert (In c (Categories (Dict.set (leaderboards w) c scores'))) as I.
  { unfold Categories. rewrite dict_keys_set_present by assumption.
    apply dict_get_Some_in in G. apply in_map_iff. now exists (c, scores). }
  assert (Dict.get (Dict.set (leaderboards w) c scores') c = Some scores') as G'
    by apply dict_get_set_same.
  split; [|split; [|split; [|split; [|split; [|split; [|split]]]]]].
  - unfold Get. rewrite G'.
    apply (dict_del_get_same scores); [|assumption].
    now apply (store_wf_get (leaderboards w) c).
  - intros c' u' N. unfold Get.
    destruct (string_dec c c') as [<-|Nc].
    + rewrite G', G. apply (dict_del_get_other scores _ (discord.id user));
        [assumption | congruence].
    + now rewrite dict_get_set_other.
  - unfold Categories. now apply dict_keys_set_present.
  - exact I.
  - unfold entries. rewrite G', G. now apply dict_del_length with (discord.id user).
  - unfold entries. rewrite G. intros L. apply dict_del_length in D.
    rewrite G'. destruct scores'; [reflexivity | simpl in D; lia].
  - unfold sorted_types.
    eapply Permutation_in; [symmetry; apply sorted_perm | exact I].
  - intros w' E. rewrite benchmark_types_run; rewrite E; [reflexivity|].
    intros Q. rewrite Q in I. destruct I.
Qed.

Lemma delete_entry_keeps_category_witness :
  let w := with_store init [("cpu"%string, [(1, f5)])] in
  let lbs := leaderboards w in
  let lbs' := leaderboards (after (benchmark_delete "cpu" (Some ann) w)) in
  Get lbs' "cpu" (discord.id ann) = None /\
  (forall c' u', (c', u') <> ("cpu"%string, discord.id ann) ->
                 Get lbs' c' u' = Get lbs c' u') /\
  Categories lbs' = Categories lbs /\
  In "cpu"%string (Categories lbs') /\
  entries lbs "cpu" = S (entries lbs' "cpu") /\
  (entries lbs "cpu" = 1%nat -> Dict.get lbs' "cpu" = Some []) /\
  In "cpu"%string (sorted_types lbs') /\
  (forall w', leaderboards w' = lbs' ->
     benchmark_types w' =
     (Ret tt,
      emit (Send (Content (Str "Available benchmark types:" :: Str newline ::
                           join newline (map (fun k => [Str k])
                                           (sorted_types lbs'))))) w')).
Proof.
  apply (delete_entry_keeps_category "cpu" ann f5
           (with_store init [("cpu"%string, [(1, f5)])])).
  - split; simpl; unfold Dict.wf; simpl; repeat constructor; simpl; tauto.
  - reflexivity.
Defined.

(** ** History *)

Lemma user_scores_fold (u : Z) (items : store) :
  forall (acc : Dict.dict string PyFloat.float) (c : string),
    Dict.wf items ->
    (forall t, In t (Dict.keys items) -> Dict.get acc t = None) ->
    Dict.get (fold_left (user_scores_step u) items acc) c =
    match Dict.get acc c with
    | Some v => Some v
    | None => Get items c u
    end.
Proof.
  unfold Dict.wf.
  induction items as [|[t scores] items IH]; intros acc c W Fresh; simpl.
  - unfold Get. simpl. now destruct (Dict.get acc c).
  - inversion W as [|? ? Nt W']; subst.
    rewrite IH; trivial.
    + unfold Get. simpl. destruct (String.eqb c t) eqn:E.
      * apply String.eqb_eq in E. subst c.
        rewrite (Fresh t) by now left.
        destruct (Dict.get scores u) as [s|] eqn:S.
        -- now rewrite dict_get_set_same.
        -- rewrite (Fresh t) by now left.
           now rewrite (proj2 (dict_get_None_notin items t) Nt).
      * destruct (Dict.get scores u) as [s|]; [|reflexivity].
        rewrite dict_get_set_other; [reflexivity|].
        intros ->. rewrite String.eqb_refl in E. discriminate.
    + intros t' I. destruct (Dict.get scores u) as [s|].
      * rewrite dict_get_set_other; [apply Fresh; now right|].
        intros ->. contradiction.
      * apply Fresh. now right.
Qed.

Lemma user_scores_wf (u : Z) (items : store) :
  forall acc : Dict.dict string PyFloat.float,
    Dict.wf acc -> Dict.wf (fold_left (user_scores_step u) items acc).
Proof.
  induction items as [|[t scores] items IH]; intros acc W; simpl; [assumption|].
  apply IH. destruct (Dict.get scores u); [now apply dict_wf_set | assumption].
Qed.

Lemma History_get (lbs : store) (u : Z) (c : string) :
  Dict.wf lbs -> Dict.get (History lbs u) c = Get lbs c u.
Proof.
  intros W. unfold History, user_scores, Dict.items.
  now rewrite user_scores_fold.
Qed.

Lemma benchmark_history_run (ctx : Context) (user : option discord.User)
  (w : world) :
  let target := match user with Some x => x | None => author ctx end in
  let scores := History (leaderboards w) (discord.id target) in
  benchmark_history ctx user w =
  (Ret tt,
   emit (Send (if Dict.is_empty scores
               then Content [Str "No historical scores found for ";
                             Str (discord.name target); Str "."]
               else EmbedMsg (fold_left history_step (Dict.items scores)
                                (history_embed target)))) w).
Proof.
  simpl. unfold benchmark_history, History. run_monad.
  now destruct (Dict.is_empty _).
Qed.

(** C6: for a store whose category keys are distinct, [History(u)] maps
    exactly the categories in which [u] has a score, each to that
    score; it is empty when [u] has none, and it depends on nothing but
    the scores of [u]; [benchmark history] renders it. *)
Theorem history_exact (lbs : store) (u : Z) (Hwf : Dict.wf lbs) :
  (forall c, Dict.get (History lbs u) c = Get lbs c u) /\
  Dict.wf (History lbs u) /\
  ((forall c, Get lbs c u = None) -> History lbs u = []) /\
  (forall lbs', Dict.wf lbs' ->
     (forall c, Get lbs' c u = Get lbs c u) ->
     forall c, Dict.get (History lbs' u) c = Dict.get (History lbs u) c) /\
  (forall ctx user w,
     leaderboards w = lbs ->
     discord.id (match user with Some x => x | None => author ctx end) = u ->
     benchmark_history ctx user w =
     (Ret tt,
      emit (Send (if Dict.is_empty (History lbs u)
                  then Content [Str "No historical scores found for ";
                                Str (discord.name
                                       (match user with
                                        | Some x => x
                                        | None => author ctx
                                        end));
                                Str "."]
                  else EmbedMsg
                         (fold_left history_step (Dict.items (History lbs u))
                            (history_embed
                               (match user with
                                | Some x => x
                                | None => author ctx
                                end))))) w)).
Proof.
  split; [|split; [|split; [|split]]].
  - intros c. now apply History_get.
  - apply user_scores_wf. constructor.
  - intros N. destruct (History lbs u) as [|[c s] h] eqn:E; [reflexivity|].
    pose proof (History_get lbs u c Hwf) as G. rewrite E, N in G.
    simpl in G. rewrite String.eqb_refl in G. discriminate.
  - intros lbs' W' Same c. rewrite !History_get by assumption. apply Same.
  - intros ctx user w <- <-. apply benchmark_history_run.
Qed.

Lemma history_exact_witness :
  (forall c, Dict.get (History two_scores 1) c = Get two_scores c 1) /\
  Dict.wf (History two_scores 1) /\
  ((forall c, Get two_scores c 1 = None) -> History two_scores 1 = []) /\
  (forall lbs', Dict.wf lbs' ->
     (forall c, Get lbs' c 1 = Get two_scores c 1) ->
     forall c, Dict.get (History lbs' 1) c = Dict.get (History two_scores 1) c) /\
  (forall ctx user w,
     leaderboards w = two_scores ->
     discord.id (match user with Some x => x | None => author ctx end) = 1 ->
     benchmark_history ctx user w =
     (Ret tt,
      emit (Send (if Dict.is_empty (History two_scores 1)
                  then Content [Str "No historical scores found for ";
                                Str (discord.name
                                       (match user with
                                        | Some x => x
                                        | None => author ctx
                                        end));
                                Str "."]
                  else EmbedMsg
                         (fold_left history_step (Dict.items (History two_scores 1))
                            (history_embed
                               (match user with
                                | Some x => x
                                | None => author ctx
                                end))))) w)).
Proof.
  apply (history_exact two_scores 1).
  unfold Dict.wf. vm_compute. repeat constructor. intros [].
Defined.

(** ** Rankings of all categories *)

Lemma existsb_eqb_app (t : string) (l : list string) (x : string) :
  existsb (String.eqb t) (l ++ [x]) = existsb (String.eqb t) l || String.eqb t x.
Proof. rewrite existsb_app. simpl. now rewrite orb_false_r. Qed.

Lemma fresh_tail (t : string) (items : store) (processed : list string)
  (x : string) :
  ~ In x (Dict.keys items) ->
  (forall t', In t' (Dict.keys items) -> existsb (String.eqb t') processed = false) ->
  forall t', In t' (Dict.keys items) ->
             existsb (String.eqb t') (processed ++ [x]) = false.
Proof.
  intros Nx Fresh t' I. rewrite existsb_eqb_app, (Fresh t' I). simpl.
  apply String.eqb_neq. intros ->. contradiction.
Qed.

Lemma top_all_fold (n : nat) (items : store) :
  forall acc processed,
    Dict.wf items ->
    (forall t, In t (Dict.keys items) -> existsb (String.eqb t) processed = false) ->
    fst (fold_left (top_all_step n) items (acc, processed)) =
    acc ++ rankings n items.
Proof.
  unfold Dict.wf.
  induction items as [|[t scores] items IH]; intros acc processed W Fresh; simpl.
  - now rewrite app_nil_r.
  - inversion W as [|? ? Nt W']; subst.
    rewrite (Fresh t) by now left. rewrite orb_false_r.
    destruct (Dict.is_empty scores); simpl.
    + apply IH; trivial. intros t' I. apply Fresh. now right.
    + rewrite IH; trivial.
      * now rewrite <- app_assoc.
      * apply (fresh_tail t); trivial. intros t' I. apply Fresh. now right.
Qed.

Lemma leaderboard_fold (n : nat) (bot : Bot) (items : store) :
  forall embed processed,
    Dict.wf items ->
    (forall t, In t (Dict.keys items) -> existsb (String.eqb t) processed = false) ->
    fst (fold_left (leaderboard_step n bot) items (embed, processed)) =
    {| discord.title := discord.title embed;
       discord.color := discord.color embed;
       discord.fields :=
         discord.fields embed ++ flat_map (leaderboard_field bot) (rankings n items) |}.
Proof.
  unfold Dict.wf.
  induction items as [|[t scores] items IH]; intros embed processed W Fresh; simpl.
  - rewrite app_nil_r. now destruct embed.
  - inversion W as [|? ? Nt W']; subst.
    rewrite (Fresh t) by now left. rewrite orb_false_r.
    destruct (Dict.is_empty scores); simpl.
    + apply IH; trivial. intros t' I. apply Fresh. now right.
    + rewrite IH; trivial.
      * unfold leaderboard_field.
        destruct (fold_left (entry_step bot)
                    (enumerate 0 (firstn n (sorted_scores scores))) []);
          simpl; [reflexivity | now rewrite <- app_assoc].
      * apply (fresh_tail t); trivial. intros t' I. apply Fresh. now right.
Qed.

Lemma rankings_get_absent (n : nat) (items : store) (c : string) :
  ~ In c (Dict.keys items) -> Dict.get (rankings n items) c = None.
Proof.
  induction items as [|[t scores] items IH]; simpl; [reflexivity|].
  intros N. destruct (Dict.is_empty scores); simpl.
  - apply IH. tauto.
  - rewrite (proj2 (String.eqb_neq c t)) by (intros ->; tauto).
    apply IH. tauto.
Qed.

Lemma rankings_get (n : nat) (items : store) (c : string) :
  Dict.wf items ->
  Dict.get (rankings n items) c =
  if (0 <? entries items c)%nat then Some (Top items c n) else None.
Proof.
  unfold Dict.wf, entries, Top.
  induction items as [|[t scores] items IH]; simpl; [reflexivity|].
  intros W. inversion W as [|? ? Nt W']; subst.
  destruct (String.eqb c t) eqn:E.
  - apply String.eqb_eq in E. subst c.
    destruct scores as [|it scores]; simpl.
    + now apply rankings_get_absent.
    + now rewrite String.eqb_refl.
  - destruct (Dict.is_empty scores); simpl; [|rewrite E]; now apply IH.
Qed.

Lemma benchmark_leaderboard_n_run (n : nat) (bot : Bot) (w : world) :
  Dict.wf (leaderboards w) -> leaderboards w <> [] ->
  benchmark_leaderboard_n n bot w =
  (Ret tt,
   emit (Send (EmbedMsg
                 {| discord.title := discord.title leaderboard_embed;
                    discord.color := discord.color leaderboard_embed;
                    discord.fields :=
                      flat_map (leaderboard_field bot)
                        (TopAllCategories n (leaderboards w)) |})) w).
Proof.
  intros W N. unfold benchmark_leaderboard_n, TopAllCategories, Dict.items.
  run_monad. destruct (leaderboards w) as [|it lbs] eqn:E; [congruence|].
  simpl Dict.is_empty. cbv iota.
  pose proof (leaderboard_fold n bot (it :: lbs) leaderboard_embed [] W) as L.
  destruct (fold_left (leaderboard_step n bot) (it :: lbs) (leaderboard_embed, []))
    as [embed processed].
  simpl in L. rewrite L by reflexivity.
  rewrite top_all_fold by (trivial; reflexivity). reflexivity.
Qed.

(** C8: for a store whose category keys are distinct,
    [TopAllCategories(n)] maps every category with at least one entry to
    [Top(c, n)] and has no key for a category with no entry;
    [benchmark leaderboard] renders [TopAllCategories(3)]. *)
Theorem top_all_categories_exact (n : nat) (lbs : store) (Hwf : Dict.wf lbs) :
  (forall c, (0 < entries lbs c)%nat ->
             Dict.get (TopAllCategories n lbs) c = Some (Top lbs c n)) /\
  (forall c, entries lbs c = 0%nat -> Dict.get (TopAllCategories n lbs) c = None) /\
  (forall bot w,
     leaderboards w = lbs -> lbs <> [] ->
     benchmark_leaderboard bot w =
     (Ret tt,
      emit (Send (EmbedMsg
                    {| discord.title := [Str "Overall Benchmark Leaderboards"];
                       discord.color := discord.purple;
                       discord.fields :=
                         flat_map (leaderboard_field bot)
                           (TopAllCategories 3 lbs) |})) w)).
Proof.
  assert (forall c, Dict.get (TopAllCategories n lbs) c =
                    if (0 <? entries lbs c)%nat then Some (Top lbs c n) else None)
    as G.
  { intros c. unfold TopAllCategories, Dict.items.
    rewrite top_all_fold by (trivial; reflexivity). simpl.
    now apply rankings_get. }
  split; [|split].
  - intros c P. rewrite G. now rewrite (proj2 (Nat.ltb_lt _ _) P).
  - intros c Z0. rewrite G, Z0. reflexivity.
  - intros bot w <- N. unfold benchmark_leaderboard.
    now rewrite benchmark_leaderboard_n_run.
Qed.

Lemma top_all_categories_exact_witness :
  Dict.wf two_scores /\
  Dict.get (TopAllCategories 3 two_scores) "cpu" = Some (Top two_scores "cpu" 3).
Proof.
  assert (Dict.wf two_scores) as W
    by (unfold Dict.wf; vm_compute; repeat constructor; intros []).
  split; [exact W|].
  apply (proj1 (top_all_categories_exact 3 two_scores W)).
  vm_compute. lia.
Defined.

(** ** Category names *)

Lemma add_store_cases (ctx : Context) (c : string) (s : PyFloat.float)
  (w : world) :
  leaderboards (after (benchmark_add ctx c s w)) = leaderboards w \/
  leaderboards (after (benchmark_add ctx c s w)) =
    put_store (leaderboards w) c (discord.id (author ctx)) s.
Proof.
  pose proof (benchmark_add_run ctx c s w) as R. simpl in R. rewrite R.
  rewrite persist_then_send_run. unfold with_store. simpl.
  destruct (Get (leaderboards w) c (discord.id (author ctx))) as [p|].
  - destruct (PyFloat.gt s p); [right | left; reflexivity].
    now destruct (hd false (faults w)).
  - right. now destruct (hd false (faults w)).
Qed.

Lemma add_get_other_category (ctx : Context) (c c' : string)
  (s : PyFloat.float) (w : world) :
  c <> c' ->
  Dict.get (leaderboards (after (benchmark_add ctx c s w))) c' =
  Dict.get (leaderboards w) c'.
Proof.
  intros N. destruct (add_store_cases ctx c s w) as [-> | ->]; [reflexivity|].
  unfold put_store. now rewrite dict_get_set_other.
Qed.

Lemma reads_return (ctx : Context) (bot : Bot) (user : option discord.User)
  (w : world) :
  outcome (benchmark_types w) = Ret tt /\
  outcome (benchmark_history ctx user w) = Ret tt /\
  outcome (benchmark_leaderboard bot w) = Ret tt.
Proof.
  split; [|split].
  - unfold benchmark_types. run_monad. now destruct (Dict.is_empty _).
  - now rewrite benchmark_history_run.
  - unfold benchmark_leaderboard, benchmark_leaderboard_n. run_monad.
    destruct (Dict.is_empty _); [reflexivity|].
    now destruct (fold_left _ _ _).
Qed.

(** C9: whatever the category name, no command raises [KeyError] or
    rejects the name: [view], [types], [history] and [leaderboard]
    always return, and [add] and [delete] return whenever the durable
    write goes through.  Two distinct names, as [cpu] and [CPU] are,
    name distinct categories: [add] under one stores under that name
    and leaves [Get] and [Top] under the other as they were. *)
Theorem category_names_distinct (c c' : string) (ctx : Context)
  (s : PyFloat.float) (bot : Bot) (user : option discord.User) (w : world)
  (Hne : c <> c') :
  (hd false (faults w) = false ->
   outcome (benchmark_add ctx c s w) = Ret tt /\
   outcome (benchmark_delete c user w) = Ret tt) /\
  outcome (benchmark_add ctx c s w) <> Raise KeyError /\
  outcome (benchmark_delete c user w) <> Raise KeyError /\
  outcome (benchmark_view bot c w) = Ret tt /\
  outcome (benchmark_types w) = Ret tt /\
  outcome (benchmark_history ctx user w) = Ret tt /\
  outcome (benchmark_leaderboard bot w) = Ret tt /\
  let lbs' := leaderboards (after (benchmark_add ctx c s w)) in
  Get lbs' c (discord.id (author ctx)) <> None /\
  (forall u, Get lbs' c' u = Get (leaderboards w) c' u) /\
  (forall n, Top lbs' c' n = Top (leaderboards w) c' n).
Proof.
  assert (outcome (benchmark_add ctx c s w) =
          if hd false (faults w) then outcome (benchmark_add ctx c s w)
          else Ret tt) as A.
  { pose proof (benchmark_add_run ctx c s w) as R. simpl in R. rewrite R.
    rewrite persist_then_send_run. unfold with_store. simpl.
    destruct (hd false (faults w)); [reflexivity|].
    destruct (Get (leaderboards w) c (discord.id (author ctx))) as [p|];
      [destruct (PyFloat.gt s p)|]; reflexivity. }
  assert (outcome (benchmark_add ctx c s w) <> Raise KeyError) as A'.
  { pose proof (benchmark_add_run ctx c s w) as R. simpl in R. rewrite R.
    rewrite persist_then_send_run. unfold with_store. simpl.
    destruct (Get (leaderboards w) c (discord.id (author ctx))) as [p|];
      [destruct (PyFloat.gt s p)|]; destruct (hd false (faults w));
      discriminate. }
  assert (outcome (benchmark_delete c user w) = Ret tt \/
          (outcome (benchmark_delete c user w) = Raise ConfigError /\
           hd false (faults w) = true)) as D.
  { rewrite benchmark_delete_run.
    destruct (Dict.get (leaderboards w) c) as [scores|] eqn:G; [|now left].
    destruct user as [user|].
    - destruct (Dict.get scores (discord.id user)); [|now left].
      destruct (Dict.del scores (discord.id user)); [|now left].
      rewrite persist_then_send_run. unfold with_store. simpl.
      destruct (hd false (faults w)); auto.
    - destruct (dict_del_mem (leaderboards w) c) as [lbs' D];
        [now apply mem_get_Some with scores|].
      rewrite D, persist_then_send_run. unfold with_store. simpl.
      destruct (hd false (faults w)); auto. }
  destruct (reads_return ctx bot user w) as (Rt & Rh & Rl).
  split; [|split; [|split; [|split; [|split; [|split; [|split;
    [|split; [|split]]]]]]]]; trivial.
  - intros Hdisk. rewrite Hdisk in A. split; [exact A|].
    destruct D as [D|[_ D]]; [exact D | congruence].
  - destruct D as [-> | [-> _]]; discriminate.
  - unfold benchmark_view. now rewrite benchmark_view_n_run.
  - pose proof (Get_after_add ctx c s w) as G. simpl in G. rewrite G.
    discriminate.
  - intros u. unfold Get. now rewrite add_get_other_category.
  - intros n. unfold Top. now rewrite add_get_other_category.
Qed.

Lemma category_names_distinct_witness :
  let w := with_store init two_scores in
  let lbs' := leaderboards (after (benchmark_add as_ann "cpu" f5 w)) in
  "cpu" <> "CPU" /\
  (forall u, Get lbs' "CPU" u = Get two_scores "CPU" u) /\
  (forall n, Top lbs' "CPU" n = Top two_scores "CPU" n).
Proof.
  assert ("cpu" <> "CPU") as N by discriminate.
  split; [exact N|].
  apply (category_names_distinct "cpu" "CPU" as_ann f5
           (Build_Bot (fun _ => None)) None (with_store init two_scores) N).
Defined.

(** ** What the rendering drops *)

Lemma entry_step_fold (bot : Bot) (l : list (Z * (Z * PyFloat.float))) :
  forall acc,
    fold_left (entry_step bot) l acc =
    acc ++ flat_map (fun it => fold_left (entry_step bot) [it] []) l.
Proof.
  induction l as [|[rank [u s]] l IH]; intros acc; simpl.
  - now rewrite app_nil_r.
  - rewrite IH. destruct (fetch_user bot u); simpl.
    + now rewrite <- app_assoc.
    + reflexivity.
Qed.

(** [benchmark leaderboard] adds no field for a ranking none of whose
    users can be fetched, and only then. *)
Lemma leaderboard_field_nil_iff (bot : Bot) (c : string)
  (top : list (Z * PyFloat.float)) :
  leaderboard_field bot (c, top) = [] <->
  forall u s, In (u, s) top -> fetch_user bot u = None.
Proof.
  unfold leaderboard_field. generalize 0.
  induction top as [|[u s] top IH]; intros start; simpl.
  - split; [intros _ ? ? [] | reflexivity].
  - rewrite entry_step_fold. simpl.
    destruct (fetch_user bot u) as [user|] eqn:F; simpl.
    + split; [discriminate|]. intros A.
      rewrite (A u s) in F by now left. discriminate.
    + specialize (IH (start + 1)). rewrite entry_step_fold in IH. simpl in IH.
      rewrite IH. split.
      * intros A u' s' [[= <- <-]|I]; eauto.
      * intros A u' s' I. apply (A u' s'). now right.
Qed.

(** ** The store invariant *)

Lemma dict_set_Forall {K V : Type} `{Key K} (P : K * V -> Prop)
  (d : Dict.dict K V) (k : K) (v : V) :
  Forall P d -> (forall k', P (k', v)) -> Forall P (Dict.set d k v).
Proof.
  intros F Pv. induction F as [|[k0 v0] d P0 F IH]; simpl.
  - repeat constructor. apply Pv.
  - destruct (key_eqb k k0); constructor; auto.
Qed.

Lemma dict_del_Forall {K V : Type} `{Key K} (P : K * V -> Prop)
  (d d' : Dict.dict K V) (k : K) :
  Forall P d -> Dict.del d k = Some d' -> Forall P d'.
Proof.
  intros F. revert d'. induction F as [|[k0 v0] d P0 F IH]; simpl;
    [discriminate|].
  intros d' D. destruct (key_eqb k k0).
  - now injection D as <-.
  - destruct (Dict.del d k) as [r|]; [|discriminate].
    injection D as <-. constructor; auto.
Qed.

Lemma store_wf_init : store_wf (leaderboards init).
Proof. split; constructor. Qed.

Lemma store_wf_put_store (lbs : store) (c : string) (u : Z) (s : PyFloat.float) :
  store_wf lbs -> store_wf (put_store lbs c u s).
Proof.
  intros W. pose proof W as [Wk Wv]. unfold put_store. split.
  - now apply dict_wf_set.
  - apply dict_set_Forall; [assumption|]. intros k0. simpl.
    apply dict_wf_set. destruct (Dict.get lbs c) as [scores|] eqn:G.
    + now apply (store_wf_get lbs c).
    + constructor.
Qed.

(** [benchmark add] keeps the keys of every dictionary distinct. *)
Lemma benchmark_add_wf (ctx : Context) (c : string) (s : PyFloat.float)
  (w : world) :
  store_wf (leaderboards w) ->
  store_wf (leaderboards (after (benchmark_add ctx c s w))).
Proof.
  intros W. destruct (add_store_cases ctx c s w) as [-> | ->];
    [assumption | now apply store_wf_put_store].
Qed.

(** [benchmark delete] keeps the keys of every dictionary distinct. *)
Lemma benchmark_delete_wf (c : string) (user : option discord.User) (w : world) :
  store_wf (leaderboards w) ->
  store_wf (leaderboards (after (benchmark_delete c user w))).
Proof.
  intros W. pose proof W as [Wk Wv]. rewrite benchmark_delete_run.
  destruct (Dict.get (leaderboards w) c) as [scores|] eqn:G; [|assumption].
  destruct user as [user|].
  - destruct (Dict.get scores (discord.id user)); [|assumption].
    destruct (Dict.del scores (discord.id user)) as [scores'|] eqn:D;
      [|assumption].
    rewrite persist_then_send_run. unfold with_store. simpl.
    assert (store_wf (Dict.set (leaderboards w) c scores')) as W'.
    { split; [now apply dict_wf_set|].
      apply dict_set_Forall; [assumption|]. intros k0. simpl.
      apply (dict_wf_del scores _ (discord.id user)); [|assumption].
      now apply (store_wf_get (leaderboards w) c). }
    now destruct (hd false (faults w)).
  - destruct (Dict.del (leaderboards w) c) as [lbs'|] eqn:D; [|assumption].
    rewrite persist_then_send_run. unfold with_store. simpl.
    assert (store_wf lbs') as W'.
    { split; [now apply (dict_wf_del (leaderboards w) _ c)|].
      now apply (dict_del_Forall _ (leaderboards w) _ c). }
    now destruct (hd false (faults w)).
Qed.

(** ** The end-to-end scenario of the specification *)

Example end_to_end :
  let f90 := PyFloat.of_Z 90 in
  let f99 := PyFloat.of_Z 99 in
  let w1 := after (benchmark_add as_ann "cpu" f95_5 init) in
  let w2 := after (benchmark_add as_ann "cpu" f90 w1) in
  let w3 := after (benchmark_add as_bob "cpu" f99 w2) in
  Top (leaderboards w1) "cpu" 10 = [(1, f95_5)] /\
  add_rejected as_ann "cpu" f90 w1 /\
  Top (leaderboards w2) "cpu" 10 = [(1, f95_5)] /\
  Top (leaderboards w3) "cpu" 10 = [(2, f99); (1, f95_5)].
Proof.
  simpl. split; [reflexivity|]. split; [|split; reflexivity].
  unfold add_rejected. repeat split.
Qed.

(* ================================================================== *)
(** * Further properties of the commands *)

(** ** What a command may do *)


Lemma send_only_replies (m : message) (w : world) :
  only_replies w (Ret tt, emit (Send m) w).
Proof. unfold only_replies. simpl. eauto. Qed.



Lemma view_only_replies (bot : Bot) (c : string) (w : world) :
  only_replies w (benchmark_view bot c w).
Proof.
  unfold benchmark_view. rewrite benchmark_view_n_run. apply send_only_replies.
Qed.

Lemma types_only_replies (w : world) : only_replies w (benchmark_types w).
Proof.
  unfold benchmark_types. run_monad.
  destruct (Dict.is_empty _); apply send_only_replies.
Qed.

Lemma history_only_replies (ctx : Context) (user : option discord.User)
  (w : world) :
  only_replies w (benchmark_history ctx user w).
Proof. rewrite benchmark_history_run. apply send_only_replies. Qed.

Lemma leaderboard_only_replies (bot : Bot) (w : world) :
  only_replies w (benchmark_leaderboard bot w).
Proof.
  unfold benchmark_leaderboard, benchmark_leaderboard_n. run_monad.
  destruct (Dict.is_empty _); [apply send_only_replies|].
  destruct (fold_left _ _ _). apply send_only_replies.
Qed.




(** ** The durable copy *)









(** ** What [add] and [delete] leave alone *)

Lemma dict_length_set_absent {K V : Type} `{Key K} (d : Dict.dict K V)
  (k : K) (v : V) :
  Dict.get d k = None -> List.length (Dict.set d k v) = S (List.length d).
Proof.
  intros G. rewrite dict_set_absent by assumption.
  rewrite length_app. simpl. lia.
Qed.

Lemma put_store_categories (lbs : store) (c : string) (u : Z)
  (s : PyFloat.float) :
  Categories (put_store lbs c u s) =
  if Dict.mem c lbs then Categories lbs else Categories lbs ++ [c].
Proof.
  unfold Categories, put_store, Dict.mem.
  destruct (Dict.get lbs c) as [scores|] eqn:G.
  - apply dict_keys_set_present. now apply mem_get_Some with scores.
  - rewrite dict_set_absent by assumption. unfold Dict.keys.
    now rewrite map_app.
Qed.

Lemma put_store_entries (lbs : store) (c : string) (u : Z) (s : PyFloat.float) :
  entries (put_store lbs c u s) c =
  match Get lbs c u with
  | Some _ => entries lbs c
  | None => S (entries lbs c)
  end.
Proof.
  unfold entries, put_store, Get. rewrite dict_get_set_same.
  destruct (Dict.get lbs c) as [scores|].
  - destruct (Dict.get scores u) as [p|] eqn:P.
    + apply dict_length_set_present. now apply mem_get_Some with p.
    + now apply dict_length_set_absent.
  - reflexivity.
Qed.

(** X5: [benchmark add] touches at most the entry of the invoking user in
    the named category: every other entry keeps its value, the
    categories keep their order with a new one appended last, and the
    category gains an entry exactly when the user had none. *)
Theorem add_touches_one_entry (ctx : Context) (c : string)
  (s : PyFloat.float) (w : world) :
  let u := discord.id (author ctx) in
  let lbs := leaderboards w in
  let lbs' := leaderboards (after (benchmark_add ctx c s w)) in
  (forall c' u', (c', u') <> (c, u) -> Get lbs' c' u' = Get lbs c' u') /\
  Categories lbs' =
    (if Dict.mem c lbs then Categories lbs else Categories lbs ++ [c]) /\
  entries lbs' c =
    match Get lbs c u with
    | Some _ => entries lbs c
    | None => S (entries lbs c)
    end.
Proof.
  simpl. pose proof (benchmark_add_run ctx c s w) as R. simpl in R.
  assert (forall m,
             leaderboards
               (after ((config_set ;;; send m)
                         (with_store w (put_store (leaderboards w) c
                                          (discord.id (author ctx)) s))))
             = put_store (leaderboards w) c (discord.id (author ctx)) s) as E.
  { intros m. rewrite persist_then_send_run. unfold with_store. simpl.
    now destruct (hd false (faults w)). }
  assert (forall lbs', lbs' = put_store (leaderboards w) c
                                (discord.id (author ctx)) s ->
            (forall c' u', (c', u') <> (c, discord.id (author ctx)) ->
                           Get lbs' c' u' = Get (leaderboards w) c' u') /\
            Categories lbs' =
              (if Dict.mem c (leaderboards w) then Categories (leaderboards w)
               else Categories (leaderboards w) ++ [c]) /\
            entries lbs' c =
              match Get (leaderboards w) c (discord.id (author ctx)) with
              | Some _ => entries (leaderboards w) c
              | None => S (entries (leaderboards w) c)
              end) as P.
  { intros lbs' ->. split; [|split].
    - intros c' u' N. apply Get_put_store_other. congruence.
    - apply put_store_categories.
    - apply put_store_entries. }
  rewrite R.
  destruct (Get (leaderboards w) c (discord.id (author ctx))) as [p|] eqn:G.
  - destruct (PyFloat.gt s p).
    + rewrite E. now apply P.
    + simpl. split; [reflexivity|]. split; [|reflexivity].
      unfold Get in G. unfold Dict.mem.
      now destruct (Dict.get (leaderboards w) c).
  - rewrite E. now apply P.
Qed.

(** X6: [benchmark delete <category> <user>] for a user who has no score in
    an existing category replies that the user has no score, changes
    nothing and attempts no durable write. *)
Theorem delete_missing_entry (c : string) (user : discord.User) (w : world)
  (Hcat : Dict.mem c (leaderboards w) = true)
  (Hno : Get (leaderboards w) c (discord.id user) = None) :
  let r := benchmark_delete c (Some user) w in
  outcome r = Ret tt /\
  leaderboards (after r) = leaderboards w /\
  faults (after r) = faults w /\
  trace (after r) =
    trace w ++ [Send (Content [Str (discord.name user);
                               Str " has no score for "; Str c;
                               Str " benchmark"])].
Proof.
  simpl. rewrite benchmark_delete_run. unfold Get in Hno.
  unfold Dict.mem in Hcat.
  destruct (Dict.get (leaderboards w) c) as [scores|]; [|discriminate].
  rewrite Hno. simpl. auto.
Qed.

Lemma delete_missing_entry_witness :
  let w := with_store init two_scores in
  let r := benchmark_delete "cpu" (Some {| discord.id := 7;
                                           discord.name := "eve" |}) w in
  outcome r = Ret tt /\
  leaderboards (after r) = leaderboards w /\
  faults (after r) = faults w /\
  trace (after r) =
    trace w ++ [Send (Content [Str "eve"; Str " has no score for "; Str "cpu";
                               Str " benchmark"])].
Proof.
  apply (delete_missing_entry "cpu" {| discord.id := 7; discord.name := "eve" |}
           (with_store init two_scores)); reflexivity.
Defined.

Lemma dict_del_keys_filter (d d' : store) (c : string) :
  Dict.wf d -> Dict.del d c = Some d' ->
  Dict.keys d' = filter (fun k => negb (String.eqb k c)) (Dict.keys d).
Proof.
  unfold Dict.wf. revert d'.
  induction d as [|[k0 v0] d IH]; simpl; [discriminate|].
  intros d' W D. inversion W as [|? ? N W']; subst.
  destruct (String.eqb c k0) eqn:E.
  - injection D as <-. apply String.eqb_eq in E. subst k0.
    rewrite String.eqb_refl. simpl.
    symmetry. apply forallb_filter_id. apply forallb_forall.
    intros k I. apply negb_true_iff, String.eqb_neq. intros ->. contradiction.
  - destruct (Dict.del d c) as [r|]; [|discriminate].
    injection D as <-. simpl. rewrite String.eqb_sym, E. simpl.
    f_equal. now apply IH.
Qed.

(** X7: Deleting a category leaves every other category as it was, entries
    and position: the categories are the former ones without the
    deleted name, in the same order. *)
Theorem delete_category_keeps_others (c : string) (w : world)
  (Hwf : Dict.wf (leaderboards w))
  (Hin : Dict.mem c (leaderboards w) = true) :
  let lbs := leaderboards w in
  let lbs' := leaderboards (after (benchmark_delete c None w)) in
  (forall c', c' <> c -> Dict.get lbs' c' = Dict.get lbs c') /\
  Categories lbs' = filter (fun k => negb (String.eqb k c)) (Categories lbs).
Proof.
  simpl. destruct (delete_category_store c w Hin) as (lbs' & D & ->).
  split.
  - intros c' N. apply (dict_del_get_other _ _ c); [assumption | congruence].
  - now apply dict_del_keys_filter.
Qed.

Lemma delete_category_keeps_others_witness :
  let w := with_store init [("cpu", [(1, f5)]); ("gpu", [(2, f3)])] in
  let lbs := leaderboards w in
  let lbs' := leaderboards (after (benchmark_delete "cpu" None w)) in
  (forall c', c' <> "cpu" -> Dict.get lbs' c' = Dict.get lbs c') /\
  Categories lbs' = filter (fun k => negb (String.eqb k "cpu")) (Categories lbs).
Proof.
  apply (delete_category_keeps_others "cpu"
           (with_store init [("cpu", [(1, f5)]); ("gpu", [(2, f3)])])).
  - unfold Dict.wf. simpl. repeat constructor; simpl; intuition discriminate.
  - reflexivity.
Defined.

Lemma delete_entry_store (c : string) (user : discord.User)
  (scores : Dict.dict Z PyFloat.float) (p : PyFloat.float) (w : world) :
  Dict.get (leaderboards w) c = Some scores ->
  Dict.get scores (discord.id user) = Some p ->
  exists scores',
    Dict.del scores (discord.id user) = Some scores' /\
    leaderboards (after (benchmark_delete c (Some user) w)) =
      Dict.set (leaderboards w) c scores'.
Proof.
  intros G P. destruct (dict_del_mem scores (discord.id user)) as [scores' D];
    [now apply mem_get_Some with p|].
  exists scores'. split; [assumption|].
  rewrite benchmark_delete_run, G, P, D, persist_then_send_run.
  unfold with_store. simpl. now destruct (hd false (faults w)).
Qed.

(** X8: Deleting a user's score resets the personal best: the next
    [benchmark add] of that user in the category is accepted as a new
    score whatever its value, also below the deleted one. *)
Theorem add_after_delete_is_accepted (c : string) (user : discord.User)
  (s0 s : PyFloat.float) (w : world)
  (Hwf : store_wf (leaderboards w))
  (Hget : Get (leaderboards w) c (discord.id user) = Some s0) :
  let w1 := after (benchmark_delete c (Some user) w) in
  Get (leaderboards w1) c (discord.id user) = None /\
  add_accepted {| author := user |} c s w1.
Proof.
  simpl. unfold Get in Hget.
  destruct (Dict.get (leaderboards w) c) as [scores|] eqn:G; [|discriminate].
  destruct (delete_entry_store c user scores s0 w G Hget) as (scores' & D & E).
  assert (Get (leaderboards (after (benchmark_delete c (Some user) w))) c
              (discord.id user) = None) as N.
  { rewrite E. unfold Get. rewrite dict_get_set_same.
    apply (dict_del_get_same scores); [|assumption].
    now apply (store_wf_get (leaderboards w) c). }
  split; [exact N|].
  destruct (add_cases {| author := user |} c s
              (after (benchmark_delete c (Some user) w))) as [[_ A]|[X _]];
    [exact A|].
  exfalso. apply X. left. exact N.
Qed.

Lemma add_after_delete_is_accepted_witness :
  let w := with_store init [("cpu", [(1, f5)])] in
  let w1 := after (benchmark_delete "cpu" (Some ann) w) in
  Get (leaderboards w1) "cpu" (discord.id ann) = None /\
  add_accepted {| author := ann |} "cpu" f3 w1.
Proof.
  apply (add_after_delete_is_accepted "cpu" ann f5 f3
           (with_store init [("cpu", [(1, f5)])])).
  - split; simpl; unfold Dict.wf; simpl; repeat constructor; simpl; tauto.
  - reflexivity.
Defined.

(** ** [nan] *)

Lemma float_gt_nan_l (p : PyFloat.float) : PyFloat.gt PyFloat.nan p = false.
Proof. unfold PyFloat.gt, PyFloat.nan, SFltb. now destruct p. Qed.

(** X9: A [nan] never replaces a stored score: [benchmark add] with [nan]
    is rejected as soon as the user has an entry in the category. *)
Theorem nan_never_replaces_a_score (ctx : Context) (c : string)
  (p : PyFloat.float) (w : world)
  (Hget : Get (leaderboards w) c (discord.id (author ctx)) = Some p) :
  add_rejected ctx c PyFloat.nan w.
Proof.
  destruct (add_cases ctx c PyFloat.nan w) as [[E _]|[_ R]]; [|exact R].
  rewrite Hget in E. destruct E as [E|(q & [= <-] & E)]; [discriminate|].
  rewrite float_gt_nan_l in E. discriminate.
Qed.

Lemma nan_never_replaces_a_score_witness :
  add_rejected as_ann "cpu" PyFloat.nan (with_store init two_scores).
Proof.
  apply (nan_never_replaces_a_score as_ann "cpu" f5 (with_store init two_scores)).
  reflexivity.
Defined.

(** X10: Once [nan] is stored for a user, every later [benchmark add] of that
    user in the category is rejected, whatever the score: the entry
    stays [nan] until it is deleted. *)
Theorem nan_blocks_every_later_score (ctx : Context) (c : string) (w : world)
  (Hnan : Get (leaderboards w) c (discord.id (author ctx)) = Some PyFloat.nan) :
  (forall s, add_rejected ctx c s w) /\
  (forall scores,
      Get (leaderboards (run_adds ctx c scores w)) c (discord.id (author ctx))
        = Some PyFloat.nan).
Proof.
  split.
  - intros s. destruct (add_cases ctx c s w) as [[E _]|[_ R]]; [|exact R].
    rewrite Hnan in E. destruct E as [E|(q & [= <-] & E)]; [discriminate|].
    unfold PyFloat.gt, PyFloat.nan, SFltb in E. discriminate.
  - intros scores. now apply nan_entry_never_improves.
Qed.

Lemma nan_blocks_every_later_score_witness :
  add_rejected as_ann "cpu" f95_5 (with_store init nan_scores).
Proof.
  apply (nan_blocks_every_later_score as_ann "cpu" (with_store init nan_scores)).
  reflexivity.
Defined.

(** ** What [view] and [leaderboard] show *)

Lemma view_step_fold (bot : Bot) (l : list (Z * (Z * PyFloat.float))) :
  forall embed,
    fold_left (view_step bot) l embed =
    {| discord.title := discord.title embed;
       discord.color := discord.color embed;
       discord.fields := discord.fields embed ++ flat_map (view_field bot) l |}.
Proof.
  induction l as [|[rank [u s]] l IH]; intros embed; simpl.
  - rewrite app_nil_r. now destruct embed.
  - rewrite IH. destruct (fetch_user bot u); simpl;
      [now rewrite <- app_assoc | reflexivity].
Qed.







Lemma entry_shown_ranks (bot : Bot) (l : list (Z * PyFloat.float)) :
  forall start,
    map (fun f => shown_rank (fst f))
        (flat_map (view_field bot) (enumerate (start + 1) l)) =
    map shown_rank
        (flat_map (fun it => fold_left (entry_step bot) [it] [])
                  (enumerate start l)).
Proof.
  induction l as [|[u s] l IH]; intros start; simpl; [reflexivity|].
  rewrite !map_app. f_equal; [|apply IH].
  now destruct (fetch_user bot u).
Qed.

(** X13: [view] numbers with [enumerate(..., 1)] and [leaderboard] with
    [enumerate(...)] and [rank + 1]: on the same ranking and the same
    fetchable users both show the same ranks. *)
Theorem view_and_leaderboard_ranks_agree (bot : Bot)
  (l : list (Z * PyFloat.float)) (embed : discord.Embed) :
  map (fun f => shown_rank (fst f))
      (discord.fields (fold_left (view_step bot) (enumerate 1 l) embed)) =
  map (fun f => shown_rank (fst f)) (discord.fields embed) ++
  map shown_rank (fold_left (entry_step bot) (enumerate 0 l) []).
Proof.
  rewrite view_step_fold, entry_step_fold. simpl. rewrite map_app. f_equal.
  apply (entry_shown_ranks bot l 0).
Qed.

(** ** Rankings: completeness, best first, ties *)

Lemma float_le_not_lt (a b : PyFloat.float) :
  PyFloat.le a b = true -> PyFloat.lt b a = false.
Proof.
  intros L. destruct (float_le_not_nan a b L) as [Na Nb].
  destruct (PyFloat.lt b a) eqn:E; [|reflexivity].
  apply float_lt_iff in E; trivial. apply float_le_iff in L; trivial.
  rewrite lex_compare_antisym, E in L. now contradiction L.
Qed.

Lemma lex_compare_eq (a b : Z * Z * Z) : lex_compare a b = Eq -> a = b.
Proof. lex_cases. Qed.

Lemma float_eqb_not_lt (v a b : PyFloat.float) :
  float_eqb v a = true -> float_eqb v b = true -> PyFloat.lt a b = false.
Proof.
  unfold float_eqb, SFeqb, PyFloat.lt, SFltb. intros Ea Eb.
  assert (PyFloat.is_nan v = false /\ PyFloat.is_nan a = false /\
          PyFloat.is_nan b = false) as (Nv & Na & Nb)
    by (destruct v, a, b; simpl in *; try discriminate; auto).
  rewrite SFcompare_rank in * by assumption.
  destruct (lex_compare (rank v) (rank a)) eqn:Ca; try discriminate.
  destruct (lex_compare (rank v) (rank b)) eqn:Cb; try discriminate.
  apply lex_compare_eq in Ca, Cb. rewrite <- Ca, <- Cb.
  now rewrite lex_compare_refl.
Qed.

Section SortStable.
Context {A B : Type} (key : A -> B) (lt : B -> B -> bool).
Context (P : A -> Prop) (f : A -> bool).
Hypothesis lt_asym : forall x y, P x -> P y ->
  lt (key x) (key y) = true -> lt (key y) (key x) = false.
Hypothesis nlt_trans : forall x y z, P x -> P y -> P z ->
  lt (key x) (key y) = false -> lt (key y) (key z) = false ->
  lt (key x) (key z) = false.
Hypothesis f_class : forall x y, P x -> P y ->
  f x = true -> f y = true -> lt (key x) (key y) = false.

Lemma insert_ascending (x : A) (l : list A) :
  P x -> Forall P l -> StronglySorted (fun a b => lt (key b) (key a) = false) l -> StronglySorted (fun a b => lt (key b) (key a) = false)
    (PySort.insert key lt x l).
Proof.
  intros Px Pl S.
  apply (insert_sorted key lt P (fun a b => lt (key b) (key a) = false));
    auto.
  intros a b c Pa Pb Pc Hab Hbc. now apply (nlt_trans c b a).
Qed.

Lemma insert_filter (x : A) (l : list A) :
  P x -> Forall P l -> StronglySorted (fun a b => lt (key b) (key a) = false) l ->
  filter f (PySort.insert key lt x l) =
  filter f l ++ (if f x then [x] else []).
Proof.
  intros Px Pl S. induction S as [|y l S IH F]; simpl.
  - now destruct (f x).
  - inversion Pl as [|? ? Py Pl']; subst.
    destruct (lt (key x) (key y)) eqn:L; simpl.
    + destruct (f x) eqn:Fx; [|now rewrite app_nil_r].
      assert (filter f (y :: l) = []) as E.
      { assert (forall z, In z (y :: l) -> f z = false) as Nz.
        { intros z Iz. destruct (f z) eqn:Fz; [|reflexivity].
          assert (P z) as Pz
            by (rewrite Forall_forall in Pl'; destruct Iz as [<-|Iz]; auto).
          pose proof (f_class x z Px Pz Fx Fz) as Lxz.
          destruct Iz as [<-|Iz]; [congruence|].
          rewrite Forall_forall in F. pose proof (F z Iz) as Lzy.
          pose proof (nlt_trans x z y Px Pz Py Lxz Lzy). congruence. }
        clear -Nz. induction (y :: l) as [|z l' IH]; simpl; [reflexivity|].
        rewrite (Nz z) by now left. apply IH. intros z' I. apply Nz. now right. }
      simpl in E. now rewrite E.
    + rewrite IH by assumption. destruct (f y); [reflexivity|reflexivity].
Qed.

Lemma fold_insert_filter (l acc : list A) :
  Forall P l -> Forall P acc -> StronglySorted (fun a b => lt (key b) (key a) = false) acc ->
  filter f (fold_left (fun a x => PySort.insert key lt x a) l acc) =
  filter f acc ++ filter f l.
Proof.
  revert acc. induction l as [|x l IH]; intros acc Pl Pa S; simpl.
  - now rewrite app_nil_r.
  - inversion Pl as [|? ? Px Pl']; subst. rewrite IH; trivial.
    + rewrite insert_filter by assumption. rewrite <- app_assoc.
      now destruct (f x).
    + eapply Permutation_Forall; [symmetry; apply insert_perm|].
      now constructor.
    + now apply insert_ascending.
Qed.

Lemma sorted_filter (reverse : bool) (l : list A) :
  Forall P l ->
  filter f (PySort.sorted key lt reverse l) = filter f l.
Proof.
  intros Pl. unfold PySort.sorted, PySort.stable_sort. destruct reverse.
  - rewrite filter_rev, fold_insert_filter;
      [| now apply Forall_rev | constructor | constructor].
    simpl. rewrite filter_rev. apply rev_involutive.
  - rewrite fold_insert_filter; trivial; constructor.
Qed.
End SortStable.

Lemma sorted_scores_with_score (v : PyFloat.float)
  (scores : Dict.dict Z PyFloat.float) :
  no_nan (map snd scores) ->
  with_score v (sorted_scores scores) = with_score v scores.
Proof.
  intros N. unfold with_score, sorted_scores, Dict.items.
  apply (sorted_filter snd PyFloat.lt
           (fun it => PyFloat.is_nan (snd it) = false)).
  - intros x y Px Py L. apply float_le_not_lt. now apply float_lt_le.
  - intros x y z Px Py Pz Lxy Lyz. apply float_le_not_lt.
    apply float_le_trans with (snd y); trivial; now apply float_not_lt_le.
  - intros x y _ _. apply float_eqb_not_lt.
  - unfold no_nan in N. now rewrite Forall_map in N.
Qed.

(** X14: Among the entries of a category that holds no [nan], those with
    equal scores are ranked in the order in which they entered the
    category: the ranking lists them as the category does, earliest
    first, as far as the ranking goes. *)
Theorem ties_keep_insertion_order (lbs : store) (c : string) (n : nat)
  (v : PyFloat.float)
  (Hnan : no_nan (map snd (category_items lbs c))) :
  (exists rest,
      with_score v (category_items lbs c) = with_score v (Top lbs c n) ++ rest) /\
  ((entries lbs c <= n)%nat ->
   with_score v (Top lbs c n) = with_score v (category_items lbs c)).
Proof.
  unfold Top, entries, category_items in *.
  destruct (Dict.get lbs c) as [scores|]; [|split; [now exists []|reflexivity]].
  unfold Dict.items in *. split.
  - exists (with_score v (skipn n (sorted_scores scores))).
    unfold with_score. rewrite <- filter_app, firstn_skipn.
    symmetry. now apply sorted_scores_with_score.
  - intros L. rewrite firstn_all2.
    + now apply sorted_scores_with_score.
    + now rewrite (Permutation_length (sorted_scores_perm scores)).
Qed.

Lemma ties_keep_insertion_order_witness :
  let tied := [("cpu", [(1, f5); (2, f95_5); (3, f5)])] in
  with_score f5 (Top tied "cpu" 10) = [(1, f5); (3, f5)].
Proof.
  apply (proj2 (ties_keep_insertion_order
                  [("cpu", [(1, f5); (2, f95_5); (3, f5)])] "cpu" 10 f5
                  ltac:(vm_compute; repeat constructor))).
  vm_compute. lia.
Defined.

(** X15: A ranking that is long enough lists every entry of the category
    exactly once, and a shorter ranking is the beginning of a longer
    one: the three entries of [leaderboard] are the first three of
    [view]. *)
Theorem ranking_complete_and_nested (lbs : store) (c : string) (n m : nat)
  (Hnm : (n <= m)%nat) :
  Top lbs c n = firstn n (Top lbs c m) /\
  ((entries lbs c <= m)%nat ->
   Permutation (Top lbs c m) (category_items lbs c)) /\
  (Dict.wf (category_items lbs c) -> NoDup (map fst (Top lbs c m))).
Proof.
  unfold Top, entries, category_items.
  destruct (Dict.get lbs c) as [scores|].
  - split; [|split].
    + rewrite firstn_firstn. now rewrite Nat.min_l.
    + intros L. rewrite firstn_all2.
      * apply sorted_scores_perm.
      * now rewrite (Permutation_length (sorted_scores_perm scores)).
    + unfold Dict.wf, Dict.keys, Dict.items. intros W.
      assert (NoDup (map fst (sorted_scores scores))) as ND.
      { apply (Permutation_NoDup (l := map fst scores)); [|assumption].
        apply Permutation_map. symmetry. apply sorted_scores_perm. }
      rewrite <- (firstn_skipn m (sorted_scores scores)), map_app in ND.
      now apply NoDup_app_remove_r in ND.
  - split; [now destruct n|]. split; [reflexivity | constructor].
Qed.

Lemma ranking_complete_and_nested_witness :
  Top two_scores "cpu" 3 = firstn 3 (Top two_scores "cpu" 10).
Proof.
  apply (ranking_complete_and_nested two_scores "cpu" 3 10). lia.
Defined.

(** X16: In a category that holds no [nan], the first entry of the ranking
    has a score that no entry of the category exceeds. *)
Theorem first_rank_is_best (lbs : store) (c : string) (n : nat) (u : Z)
  (s : PyFloat.float) (rest : list (Z * PyFloat.float))
  (Hnan : no_nan (map snd (category_items lbs c)))
  (Htop : Top lbs c n = (u, s) :: rest) :
  In (u, s) (category_items lbs c) /\
  Forall (fun it => PyFloat.le (snd it) s = true) (category_items lbs c).
Proof.
  unfold Top, category_items in *.
  destruct (Dict.get lbs c) as [scores|]; [|discriminate].
  unfold Dict.items in *.
  pose proof (sorted_scores_non_increasing scores Hnan) as S.
  pose proof (sorted_scores_perm scores) as Pm.
  destruct (sorted_scores scores) as [|[u0 s0] l] eqn:E;
    [destruct n; discriminate|].
  destruct n as [|n]; [discriminate|]. simpl in Htop.
  injection Htop as -> -> _.
  assert (PyFloat.is_nan s = false) as Ns.
  { unfold no_nan in Hnan. rewrite Forall_map, Forall_forall in Hnan.
    apply (Hnan (u, s)). apply (Permutation_in _ Pm). now left. }
  split; [apply (Permutation_in _ Pm); now left|].
  apply (Permutation_Forall Pm). inversion S as [|? ? _ F]; subst.
  constructor; [now apply float_le_refl | exact F].
Qed.

Lemma first_rank_is_best_witness :
  Forall (fun it => PyFloat.le (snd it) f95_5 = true)
         (category_items two_scores "cpu").
Proof.
  apply (first_rank_is_best two_scores "cpu" 10 2 f95_5 [(1, f5)]).
  - vm_compute. repeat constructor.
  - reflexivity.
Defined.

(** ** [leaderboard]: one field per category *)

Lemma rankings_fields (bot : Bot) (items : store) :
  (forall u, fetch_user bot u <> None) ->
  map fst (flat_map (leaderboard_field bot) (rankings 3 items)) =
  map (fun it => [Str (upper (fst it))])
      (filter (fun it => negb (Dict.is_empty (snd it))) items).
Proof.
  intros A. induction items as [|[t scores] items IH]; simpl; [reflexivity|].
  destruct (Dict.is_empty scores) eqn:E; simpl; [exact IH|].
  rewrite map_app, IH. f_equal.
  destruct (leaderboard_field bot (t, firstn 3 (sorted_scores scores))) eqn:F.
  - exfalso.
    pose proof (proj1 (leaderboard_field_nil_iff bot t _) F) as N.
    assert (List.length (firstn 3 (sorted_scores scores)) <> 0%nat) as L.
    { rewrite length_firstn,
        (Permutation_length (sorted_scores_perm scores)).
      destruct scores; [discriminate | simpl; lia]. }
    destruct (firstn 3 (sorted_scores scores)) as [|[u s] l];
      [now apply L|].
    apply (A u). apply (N u s). now left.
  - unfold leaderboard_field in F.
    destruct (fold_left _ _ _); [discriminate|]. now injection F as <- <-.
Qed.

(** X17: When every user can be fetched, [benchmark leaderboard] shows one
    field for each category that has entries, in the order of the
    store, headed by the upper-cased name, and none for a category
    without entries. *)
Theorem leaderboard_one_field_per_category (bot : Bot) (w : world)
  (Hwf : Dict.wf (leaderboards w))
  (Hne : leaderboards w <> [])
  (Hfetch : forall u, fetch_user bot u <> None) :
  exists embed,
    trace (after (benchmark_leaderboard bot w)) =
      trace w ++ [Send (EmbedMsg embed)] /\
    map fst (discord.fields embed) =
      map (fun it => [Str (upper (fst it))])
          (filter (fun it => negb (Dict.is_empty (snd it))) (leaderboards w)).
Proof.
  unfold benchmark_leaderboard.
  rewrite benchmark_leaderboard_n_run by assumption.
  eexists. split; [reflexivity|]. simpl.
  unfold TopAllCategories, Dict.items.
  rewrite top_all_fold by (trivial; reflexivity). simpl.
  now apply rankings_fields.
Qed.

Lemma leaderboard_one_field_per_category_witness :
  exists embed,
    trace (after (benchmark_leaderboard {| fetch_user := fun _ => Some ann |}
                    (with_store init [("cpu", [(1, f5)]); ("gpu", [])])))
      = [Send (EmbedMsg embed)] /\
    map fst (discord.fields embed) = [[Str "CPU"]].
Proof.
  apply (leaderboard_one_field_per_category
           {| fetch_user := fun _ => Some ann |}
           (with_store init [("cpu", [(1, f5)]); ("gpu", [])])).
  - unfold Dict.wf. simpl. repeat constructor; simpl; intuition discriminate.
  - discriminate.
  - discriminate.
Defined.

(** ** [types]: the listing *)

Lemma ascii_compare_lt_trans (a b c : ascii) :
  Ascii.compare a b = Lt -> Ascii.compare b c = Lt -> Ascii.compare a c = Lt.
Proof.
  unfold Ascii.compare. rewrite !N.compare_lt_iff. apply N.lt_trans.
Qed.

Lemma string_compare_lt_trans (s1 : string) :
  forall s2 s3,
    String.compare s1 s2 = Lt -> String.compare s2 s3 = Lt ->
    String.compare s1 s3 = Lt.
Proof.
  induction s1 as [|a s1 IH]; intros [|b s2] [|c s3]; simpl;
    try discriminate; try reflexivity.
  destruct (Ascii.compare a b) eqn:Cab; try discriminate;
    destruct (Ascii.compare b c) eqn:Cbc; try discriminate; intros H1 H2.
  - apply Ascii.compare_eq_iff in Cab, Cbc. subst.
    assert (Ascii.compare c c = Eq) as -> by apply N.compare_refl.
    now apply IH with s2.
  - apply Ascii.compare_eq_iff in Cab. subst. now rewrite Cbc.
  - apply Ascii.compare_eq_iff in Cbc. subst. now rewrite Cab.
  - now rewrite (ascii_compare_lt_trans a b c).
Qed.

Lemma string_compare_refl (s : string) : String.compare s s = Eq.
Proof.
  induction s as [|a s IH]; simpl; [reflexivity|].
  assert (Ascii.compare a a = Eq) as -> by apply N.compare_refl. exact IH.
Qed.

Lemma string_leb_trans (s1 s2 s3 : string) :
  String.leb s1 s2 = true -> String.leb s2 s3 = true -> String.leb s1 s3 = true.
Proof.
  unfold String.leb.
  destruct (String.compare s1 s2) eqn:C12; try discriminate;
    destruct (String.compare s2 s3) eqn:C23; try discriminate; intros _ _.
  - apply String.compare_eq_iff in C12, C23. subst.
    now rewrite string_compare_refl.
  - apply String.compare_eq_iff in C12. subst. now rewrite C23.
  - apply String.compare_eq_iff in C23. subst. now rewrite C12.
  - now rewrite (string_compare_lt_trans s1 s2 s3).
Qed.

Lemma sorted_types_ascending (lbs : store) :
  StronglySorted (fun a b => String.leb a b = true) (sorted_types lbs).
Proof.
  unfold sorted_types, PySort.sorted.
  apply (stable_sort_sorted (fun k : string => k) String.ltb (fun _ => True)).
  - intros x y _ _. unfold String.ltb, String.leb.
    now destruct (String.compare x y).
  - intros x y _ _. unfold String.ltb, String.leb.
    rewrite (String.compare_antisym y x).
    now destruct (String.compare x y).
  - intros x y z _ _ _. apply string_leb_trans.
  - apply Forall_forall. auto.
Qed.

(** X18: [benchmark types] on a store with categories lists every category
    exactly once, in ascending order of the names, whatever the order
    in which they were created. *)
Theorem types_lists_sorted_categories (w : world)
  (Hwf : Dict.wf (leaderboards w))
  (Hne : leaderboards w <> []) :
  let listing := sorted_types (leaderboards w) in
  trace (after (benchmark_types w)) =
    trace w ++ [Send (Content (Str "Available benchmark types:" :: Str newline ::
                               join newline (map (fun k => [Str k]) listing)))] /\
  Permutation listing (Categories (leaderboards w)) /\
  NoDup listing /\
  StronglySorted (fun a b => String.leb a b = true) listing.
Proof.
  simpl. rewrite benchmark_types_run by assumption. simpl.
  assert (Permutation (sorted_types (leaderboards w))
                      (Categories (leaderboards w))) as Pm
    by apply sorted_perm.
  split; [reflexivity|]. split; [exact Pm|]. split.
  - apply (Permutation_NoDup (l := Categories (leaderboards w)));
      [now symmetry | exact Hwf].
  - apply sorted_types_ascending.
Qed.

Lemma types_lists_sorted_categories_witness :
  sorted_types [("gpu", [(2, f3)]); ("cpu", [(1, f5)])] = ["cpu"; "gpu"] /\
  NoDup (sorted_types [("gpu", [(2, f3)]); ("cpu", [(1, f5)])]).
Proof.
  split; [reflexivity|].
  apply (types_lists_sorted_categories
           (with_store init [("gpu", [(2, f3)]); ("cpu", [(1, f5)])])).
  - unfold Dict.wf. simpl. repeat constructor; simpl; intuition discriminate.
  - discriminate.
Defined.

(** ** [history]: the order of the scores *)

Lemma dict_get_app_None {K V : Type} `{Key K} (d d' : Dict.dict K V) (k : K) :
  Dict.get d k = None -> Dict.get d' k = None -> Dict.get (d ++ d') k = None.
Proof.
  intros G G'. induction d as [|[k0 v0] d IH]; simpl in *; [assumption|].
  destruct (key_eqb k k0); [discriminate | auto].
Qed.

Lemma user_scores_closed (u : Z) (items : store) :
  forall acc : Dict.dict string PyFloat.float,
    Dict.wf items ->
    (forall t, In t (Dict.keys items) -> Dict.get acc t = None) ->
    fold_left (user_scores_step u) items acc =
    acc ++ flat_map (history_item u) items.
Proof.
  unfold Dict.wf.
  induction items as [|[t scores] items IH]; intros acc W Fresh; simpl.
  - now rewrite app_nil_r.
  - inversion W as [|? ? Nt W']; subst.
    change (history_item u (t, scores))
      with (match Dict.get scores u with Some s => [(t, s)] | None => [] end).
    destruct (Dict.get scores u) as [s|].
    + rewrite dict_set_absent by (apply Fresh; now left).
      rewrite IH; trivial; [now rewrite <- app_assoc; simpl|].
      intros t' I. apply dict_get_app_None; [apply Fresh; now right|].
      simpl. rewrite (proj2 (String.eqb_neq t' t)); [reflexivity|].
      intros ->. contradiction.
    + apply IH; trivial. intros t' I. apply Fresh. now right.
Qed.

Lemma history_step_fold (items : list (string * PyFloat.float)) :
  forall embed,
    fold_left history_step items embed =
    {| discord.title := discord.title embed;
       discord.color := discord.color embed;
       discord.fields := discord.fields embed ++ map history_field items |}.
Proof.
  induction items as [|[t s] items IH]; intros embed; simpl.
  - rewrite app_nil_r. now destruct embed.
  - rewrite IH. simpl. now rewrite <- app_assoc.
Qed.

(** X19: [benchmark history] lists the scores of the user in the order of the
    categories of the store, one field per category in which the user
    has a score, headed by the upper-cased name; other users' scores
    and categories without a score of the user add nothing. *)
Theorem history_lists_in_store_order (ctx : Context)
  (user : option discord.User) (w : world)
  (Hwf : Dict.wf (leaderboards w)) :
  let target := match user with Some x => x | None => author ctx end in
  let scores := flat_map (history_item (discord.id target)) (leaderboards w) in
  History (leaderboards w) (discord.id target) = scores /\
  trace (after (benchmark_history ctx user w)) =
    trace w ++
    [Send (match scores with
           | [] => Content [Str "No historical scores found for ";
                            Str (discord.name target); Str "."]
           | _ :: _ =>
               EmbedMsg
                 {| discord.title := [Str "Historical Benchmark Scores for ";
                                      Str (discord.name target)];
                    discord.color := discord.green;
                    discord.fields := map history_field scores |}
           end)].
Proof.
  simpl.
  assert (History (leaderboards w)
            (discord.id match user with Some x => x | None => author ctx end)
          = flat_map
              (history_item
                 (discord.id match user with Some x => x | None => author ctx end))
              (leaderboards w)) as E.
  { unfold History, user_scores, Dict.items.
    now rewrite user_scores_closed. }
  split; [exact E|].
  pose proof (benchmark_history_run ctx user w) as R. simpl in R.
  rewrite R. unfold Dict.items. rewrite history_step_fold, E.
  now destruct (flat_map _ _).
Qed.

Lemma history_lists_in_store_order_witness :
  History [("gpu", [(2, f3)]); ("cpu", [(1, f5); (2, f95_5)])] 2
  = [("gpu", f3); ("cpu", f95_5)].
Proof.
  apply (history_lists_in_store_order as_bob None
           (with_store init
              [("gpu", [(2, f3)]); ("cpu", [(1, f5); (2, f95_5)])])).
  unfold Dict.wf. simpl. repeat constructor; simpl; intuition discriminate.
Defined.

(** ** The store invariant over command sequences *)

Lemma run_command_wf (cmd : command) (w : world) :
  store_wf (leaderboards w) ->
  store_wf (leaderboards (after (run_command cmd w))).
Proof.
  intros W. destruct cmd as [ctx c s|bot c| |c user|ctx user|bot]; simpl.
  - now apply benchmark_add_wf.
  - destruct (view_only_replies bot c w) as (_ & -> & _). exact W.
  - destruct (types_only_replies w) as (_ & -> & _). exact W.
  - now apply benchmark_delete_wf.
  - destruct (history_only_replies ctx user w) as (_ & -> & _). exact W.
  - destruct (leaderboard_only_replies bot w) as (_ & -> & _). exact W.
Qed.

(** X20: Whatever commands run, in whatever order and whichever writes fail,
    the store keeps one key per category and, in each category, one
    entry per user. *)
Theorem commands_keep_one_entry_per_user (cmds : list command) (w : world)
  (Hwf : store_wf (leaderboards w)) :
  store_wf (leaderboards (run_commands cmds w)).
Proof.
  revert w Hwf. induction cmds as [|cmd cmds IH]; intros w Hwf; simpl;
    [assumption|].
  apply IH. now apply run_command_wf.
Qed.

Lemma commands_keep_one_entry_per_user_witness :
  store_wf (leaderboards
              (run_commands [Add as_ann "cpu" f5; Add as_ann "cpu" f95_5;
                             Add as_bob "cpu" f3; DeleteCmd "cpu" (Some bob)]
                 init)).
Proof.
  apply (commands_keep_one_entry_per_user
           [Add as_ann "cpu" f5; Add as_ann "cpu" f95_5;
            Add as_bob "cpu" f3; DeleteCmd "cpu" (Some bob)] init).
  split; constructor.
Defined.
